(** * Verification of [bot/perplexity_client.py]

    A shallow embedding of the [PerplexityClient] class: the extraction of
    the text from the response envelope, the formatting and truncation of
    the digest, the fallback content and the image selection.

    Conventions of the embedding.
    - A Python [str] is a list of Unicode code points, so that [len] counts
      code points, as Python does.
    - Python integers are [Z].
    - Code that can raise lives in the error monad [Exc]; [try]/[except
      Exception] is [try_except], or [try_or] when the handler only
      returns a value.
    - The services the module obtains from outside ([re.sub], [str.lower],
      the HTTP calls, the clock) are parameters: the regular-expression
      engine and the case mapping are the fields of the class [Runtime],
      the network and the clock are the fields of the record [World].
    - A string literal that the source file breaks over two lines is read
      as containing the line feed at that place.  Every other literal is
      taken character for character as the file has it. *)

From Stdlib Require Import String Ascii Bool ZArith NArith Lia List.
Import ListNotations.
Local Open Scope Z_scope.
Local Open Scope list_scope.

(** ** Python values *)

Module Py.

Definition char := N.
Definition str := list char.

(** An ASCII literal. *)
Definition lit (s : string) : str := map N_of_ascii (list_ascii_of_string s).
Arguments lit s%_string.

Definition LF : char := 10%N.

Inductive exn : Type :=
| ReError (msg : string)
| ValueError (msg : string)
| UnicodeEncodeError
| IndexError
| RecursionError
| RequestException
| JSONDecodeError.

Inductive Exc (A : Type) : Type :=
| Ok (a : A)
| Raise (e : exn).
Arguments Ok {A} a.
Arguments Raise {A} e.

Definition bind {A B} (m : Exc A) (k : A -> Exc B) : Exc B :=
  match m with
  | Ok a => k a
  | Raise e => Raise e
  end.

(** [try: body except Exception as e: handler e], where the handler itself
    may raise. *)
Definition try_except {A} (body : Exc A) (handler : exn -> Exc A) : Exc A :=
  match body with
  | Ok a => Ok a
  | Raise e => handler e
  end.

(** [try: body except Exception: return dflt]. *)
Definition try_or {A} (body : Exc A) (dflt : A) : A :=
  match body with
  | Ok a => a
  | Raise _ => dflt
  end.

Definition len {A} (l : list A) : Z := Z.of_nat (length l).

(** [a == b] on strings. *)
Fixpoint str_eqb (a b : str) : bool :=
  match a, b with
  | [], [] => true
  | x :: a', y :: b' => (x =? y)%N && str_eqb a' b'
  | _, _ => false
  end.

(** Truth value of a string or of a list: non-empty. *)
Definition truthy {A} (l : list A) : bool :=
  match l with
  | [] => false
  | _ :: _ => true
  end.

(** [s[:n]] and [s[n:]], with Python's reading of a negative bound. *)
Definition slice_to {A} (n : Z) (s : list A) : list A :=
  if n <? 0 then firstn (length s - Z.to_nat (- n)) s
  else firstn (Z.to_nat n) s.

Definition slice_from {A} (n : Z) (s : list A) : list A :=
  if n <? 0 then skipn (length s - Z.to_nat (- n)) s
  else skipn (Z.to_nat n) s.

(** An index of a slice brought into [0 .. len s]. *)
Definition clip_index {A} (i : Z) (s : list A) : nat :=
  if i <? 0 then Z.to_nat (Z.max 0 (len s + i)) else Z.to_nat (Z.min i (len s)).

(** [s[a:b]]. *)
Definition slice {A} (a b : Z) (s : list A) : list A :=
  firstn (clip_index b s - clip_index a s) (skipn (clip_index a s) s).

(** [str.isspace] of one code point: the code points CPython treats as
    white space. *)
Definition isspace (c : char) : bool :=
  ((9 <=? c) && (c <=? 13) || (28 <=? c) && (c <=? 32)
   || (c =? 0x85) || (c =? 0xA0) || (c =? 0x1680)
   || (0x2000 <=? c) && (c <=? 0x200A)
   || (c =? 0x2028) || (c =? 0x2029) || (c =? 0x202F)
   || (c =? 0x205F) || (c =? 0x3000))%N.

Fixpoint lstrip_with (p : char -> bool) (s : str) : str :=
  match s with
  | [] => []
  | c :: r => if p c then lstrip_with p r else s
  end.

Definition rstrip_with (p : char -> bool) (s : str) : str :=
  rev (lstrip_with p (rev s)).

Definition member (chars : str) (c : char) : bool := existsb (N.eqb c) chars.

(** [s.strip()], [s.rstrip()], [s.rstrip(chars)]. *)
Definition strip (s : str) : str := rstrip_with isspace (lstrip_with isspace s).
Definition rstrip (s : str) : str := rstrip_with isspace s.
Definition rstrip_chars (chars s : str) : str := rstrip_with (member chars) s.

(** [s.startswith(prefix)]. *)
Fixpoint startswith (s prefix : str) : bool :=
  match prefix, s with
  | [], _ => true
  | _ :: _, [] => false
  | p :: prefix', c :: s' => (c =? p)%N && startswith s' prefix'
  end.

(** [needle in hay]. *)
Fixpoint contains (needle hay : str) : bool :=
  startswith hay needle
  || match hay with
     | [] => false
     | _ :: hay' => contains needle hay'
     end.

(** [sep.join(parts)]. *)
Fixpoint join (sep : str) (parts : list str) : str :=
  match parts with
  | [] => []
  | [p] => p
  | p :: rest => p ++ sep ++ join sep rest
  end.

Fixpoint split_aux (sep : str) (fuel : nat) (cur s : str) : list str :=
  match fuel with
  | O => [cur ++ s]
  | S fuel' =>
      match s with
      | [] => [cur]
      | c :: r =>
          if startswith s sep
          then cur :: split_aux sep fuel' [] (skipn (length sep) s)
          else split_aux sep fuel' (cur ++ [c]) r
      end
  end.

(** [s.split(sep)] with an explicit separator; the empty separator is a
    [ValueError]. *)
Definition split (s sep : str) : Exc (list str) :=
  match sep with
  | [] => Raise (ValueError "empty separator")
  | _ :: _ => Ok (split_aux sep (length s) [] s)
  end.

Fixpoint replace_aux (old new : str) (fuel : nat) (s : str) : str :=
  match fuel with
  | O => s
  | S fuel' =>
      match s with
      | [] => []
      | c :: r =>
          if startswith s old
          then new ++ replace_aux old new fuel' (skipn (length old) s)
          else c :: replace_aux old new fuel' r
      end
  end.

(** [s.replace(old, new)]. *)
Definition replace (s old new : str) : str :=
  match old with
  | [] => new ++ flat_map (fun c => c :: new) s
  | _ :: _ => replace_aux old new (length s) s
  end.

End Py.
Import Py.

Declare Scope exc_scope.
Delimit Scope exc_scope with exc.
Notation "x <- m ;; k" := (bind m (fun x => k))
  (at level 61, m at next level, right associativity) : exc_scope.
Local Open Scope exc_scope.

(** ** [str.encode()], [hashlib.md5(...).hexdigest()] and [int(s, 16)] *)

Module Hash.

Definition byte := Z.

Definition continuation (c : N) (shift : N) : byte :=
  Z.of_N (N.lor 0x80 (N.land (N.shiftr c shift) 0x3F)).

(** UTF-8 of one code point; a surrogate cannot be encoded.  A Python [str]
    holds no value above [0x10FFFF]; the last branch gives such a value the
    same error. *)
Definition encode_char (c : char) : Exc (list byte) :=
  if (c <? 0x80)%N then Ok [Z.of_N c]
  else if (c <? 0x800)%N then
    Ok [Z.of_N (N.lor 0xC0 (N.shiftr c 6)); continuation c 0]
  else if (c <? 0x10000)%N then
    if ((0xD800 <=? c) && (c <=? 0xDFFF))%N then Raise UnicodeEncodeError
    else Ok [Z.of_N (N.lor 0xE0 (N.shiftr c 12)); continuation c 6;
             continuation c 0]
  else if (c <? 0x110000)%N then
    Ok [Z.of_N (N.lor 0xF0 (N.shiftr c 18)); continuation c 12;
        continuation c 6; continuation c 0]
  else Raise UnicodeEncodeError.

Fixpoint encode (s : str) : Exc (list byte) :=
  match s with
  | [] => Ok []
  | c :: r =>
      b <- encode_char c ;;
      bs <- encode r ;;
      Ok (b ++ bs)
  end.

(** MD5 (RFC 1321) on 32-bit words held in [Z]. *)
Definition mask32 : Z := 0xFFFFFFFF.
Definition add32 (a b : Z) : Z := Z.land (a + b) mask32.
Definition not32 (a : Z) : Z := Z.lxor a mask32.
Definition rotl32 (x c : Z) : Z :=
  Z.land (Z.lor (Z.shiftl x c) (Z.shiftr x (32 - c))) mask32.

Definition K : list Z :=
  [ 0xd76aa478; 0xe8c7b756; 0x242070db; 0xc1bdceee;
    0xf57c0faf; 0x4787c62a; 0xa8304613; 0xfd469501;
    0x698098d8; 0x8b44f7af; 0xffff5bb1; 0x895cd7be;
    0x6b901122; 0xfd987193; 0xa679438e; 0x49b40821;
    0xf61e2562; 0xc040b340; 0x265e5a51; 0xe9b6c7aa;
    0xd62f105d; 0x02441453; 0xd8a1e681; 0xe7d3fbc8;
    0x21e1cde6; 0xc33707d6; 0xf4d50d87; 0x455a14ed;
    0xa9e3e905; 0xfcefa3f8; 0x676f02d9; 0x8d2a4c8a;
    0xfffa3942; 0x8771f681; 0x6d9d6122; 0xfde5380c;
    0xa4beea44; 0x4bdecfa9; 0xf6bb4b60; 0xbebfbc70;
    0x289b7ec6; 0xeaa127fa; 0xd4ef3085; 0x04881d05;
    0xd9d4d039; 0xe6db99e5; 0x1fa27cf8; 0xc4ac5665;
    0xf4292244; 0x432aff97; 0xab9423a7; 0xfc93a039;
    0x655b59c3; 0x8f0ccc92; 0xffeff47d; 0x85845dd1;
    0x6fa87e4f; 0xfe2ce6e0; 0xa3014314; 0x4e0811a1;
    0xf7537e82; 0xbd3af235; 0x2ad7d2bb; 0xeb86d391 ].

Definition R : list Z :=
  [ 7; 12; 17; 22; 7; 12; 17; 22; 7; 12; 17; 22; 7; 12; 17; 22;
    5; 9; 14; 20; 5; 9; 14; 20; 5; 9; 14; 20; 5; 9; 14; 20;
    4; 11; 16; 23; 4; 11; 16; 23; 4; 11; 16; 23; 4; 11; 16; 23;
    6; 10; 15; 21; 6; 10; 15; 21; 6; 10; 15; 21; 6; 10; 15; 21 ].

Definition state := (Z * Z * Z * Z)%type.

Definition round (M : list Z) (st : state) (i : nat) : state :=
  let '(a, b, c, d) := st in
  let iz := Z.of_nat i in
  let '(f, g) :=
    if iz <? 16 then (Z.lor (Z.land b c) (Z.land (not32 b) d), iz)
    else if iz <? 32 then
      (Z.lor (Z.land d b) (Z.land (not32 d) c), (5 * iz + 1) mod 16)
    else if iz <? 48 then (Z.lxor b (Z.lxor c d), (3 * iz + 5) mod 16)
    else (Z.lxor c (Z.lor b (not32 d)), (7 * iz) mod 16) in
  let f := add32 (add32 (add32 f a) (nth i K 0)) (nth (Z.to_nat g) M 0) in
  (d, add32 b (rotl32 f (nth i R 0)), b, c).

Definition word_le (bs : list byte) : Z :=
  nth 0 bs 0 + Z.shiftl (nth 1 bs 0) 8 + Z.shiftl (nth 2 bs 0) 16
  + Z.shiftl (nth 3 bs 0) 24.

Definition words (block : list byte) : list Z :=
  map (fun j => word_le (firstn 4 (skipn (4 * j) block))) (seq 0 16).

Definition compress (st : state) (block : list byte) : state :=
  let '(a0, b0, c0, d0) := st in
  let '(a, b, c, d) := fold_left (round (words block)) (seq 0 64) st in
  (add32 a0 a, add32 b0 b, add32 c0 c, add32 d0 d).

Definition bytes_le (n : nat) (x : Z) : list byte :=
  map (fun j => Z.land (Z.shiftr x (8 * Z.of_nat j)) 0xFF) (seq 0 n).

Definition pad (msg : list byte) : list byte :=
  let bits := 8 * len msg in
  let zeros := Z.to_nat ((55 - len msg) mod 64) in
  msg ++ [0x80] ++ repeat 0 zeros ++ bytes_le 8 (bits mod 2 ^ 64).

Fixpoint absorb (fuel : nat) (st : state) (bs : list byte) : state :=
  match fuel, bs with
  | O, _ => st
  | _, [] => st
  | S fuel', _ => absorb fuel' (compress st (firstn 64 bs)) (skipn 64 bs)
  end.

Definition md5 (msg : list byte) : list byte :=
  let init := (0x67452301, 0xefcdab89, 0x98badcfe, 0x10325476) in
  let padded := pad msg in
  let '(a, b, c, d) := absorb (length padded) init padded in
  bytes_le 4 a ++ bytes_le 4 b ++ bytes_le 4 c ++ bytes_le 4 d.

Definition hex_digit (n : Z) : char :=
  if n <? 10 then Z.to_N (48 + n) else Z.to_N (87 + n).

Definition hexdigest (digest : list byte) : str :=
  flat_map (fun b => [hex_digit (b / 16); hex_digit (b mod 16)]) digest.

Definition digit_value (c : char) : option Z :=
  let z := Z.of_N c in
  if (48 <=? z) && (z <=? 57) then Some (z - 48)
  else if (97 <=? z) && (z <=? 102) then Some (z - 87)
  else if (65 <=? z) && (z <=? 70) then Some (z - 55)
  else None.

Fixpoint int16_aux (acc : Z) (s : str) : Exc Z :=
  match s with
  | [] => Ok acc
  | c :: r =>
      match digit_value c with
      | Some v => int16_aux (16 * acc + v) r
      | None => Raise (ValueError "invalid literal for int() with base 16")
      end
  end.

(** [int(s, 16)] on a plain run of hexadecimal digits, the only form the
    client passes. *)
Definition int16 (s : str) : Exc Z :=
  match s with
  | [] => Raise (ValueError "invalid literal for int() with base 16")
  | _ :: _ => int16_aux 0 s
  end.

End Hash.

(** ** The client *)

Module Client.

Definition BULLET : char := 0x2022%N.
Definition ELLIPSIS : char := 0x2026%N.
Definition CHART : char := 0x1F4C8%N.
Definition CALENDAR : char := 0x1F4C5%N.

(** [f"• {sentence}"] *)
Definition bullet_line (sentence : str) : str := BULLET :: lit " " ++ sentence.

Definition _generate_comprehensive_bullets : list str :=
  [ bullet_line (lit "Bitcoin maintains consolidation above key support levels with institutional accumulation patterns emerging");
    bullet_line (lit "Ethereum demonstrates network resilience with increasing validator participation and Layer 2 adoption growth");
    bullet_line (lit "Top altcoins including BNB, XRP, and SOL show divergent performance reflecting sector-specific developments");
    bullet_line (lit "Market sentiment indicators suggest cautious optimism amid ongoing regulatory clarity initiatives");
    bullet_line (lit "DeFi and AI token sectors attract renewed interest following recent technological breakthroughs");
    bullet_line (lit "Technical analysis reveals critical support and resistance zones shaping near-term price trajectories") ].

(** The [for bullet in bullets] loop of [_truncate_bullets_refined], with
    its two local variables; the [else] branch ends the loop ([break]). *)
Fixpoint truncate_loop (max_chars : Z) (bullets : list str)
    (current_length : Z) (result : list str) : list str :=
  match bullets with
  | [] => result
  | bullet :: rest =>
      let bullet_length := len bullet + 1 in
      if current_length + bullet_length <=? max_chars
      then truncate_loop max_chars rest (current_length + bullet_length)
             (result ++ [bullet])
      else
        let available_chars := max_chars - current_length in
        if 30 <? available_chars
        then result ++ [rstrip (slice_to (available_chars - 3) bullet) ++ lit "..."]
        else result
  end.

Definition _truncate_bullets_refined (bullets : list str) (max_chars : Z)
    : list str :=
  if max_chars <=? 0 then []
  else
    let result := truncate_loop max_chars bullets 0 [] in
    if (len result <? 3) && truthy bullets then slice_to 3 bullets
    else result.

(** *** [_expand_bullets] *)

(** [any(comp_bullet[2:20] in existing[2:20] for existing in expanded)] *)
Definition already_there (comp_bullet : str) (expanded : list str) : bool :=
  existsb (fun existing => contains (slice 2 20 comp_bullet) (slice 2 20 existing))
    expanded.

(** [for comp_bullet in comprehensive_bullets], with the list [expanded]
    it appends to. *)
Fixpoint expand_loop (comprehensive_bullets expanded : list str) : list str :=
  match comprehensive_bullets with
  | [] => expanded
  | comp_bullet :: rest =>
      if len (join [LF] (expanded ++ [comp_bullet])) <? 800 then
        if negb (already_there comp_bullet expanded)
        then expand_loop rest (expanded ++ [comp_bullet])
        else expand_loop rest expanded
      else expand_loop rest expanded
  end.

Definition _expand_bullets (bullets : list str) (additional_chars_needed : Z)
    : list str :=
  if additional_chars_needed <? 50 then bullets
  else
    let comprehensive_bullets := _generate_comprehensive_bullets in
    let expanded := bullets in
    expand_loop comprehensive_bullets expanded.

(** *** Services obtained from outside *)

(** [re.sub(pattern, repl, string)] and [str.lower()].  The client is
    verified for every regular-expression engine and every case mapping;
    [Reference.cpython] gives CPython's for the patterns of this file. *)
Class Runtime : Type := {
  re_sub : str -> str -> str -> Exc str;
  lower : str -> str
}.

Section WithRuntime.
Context {RT : Runtime}.

(** *** [_enhance_short_bullet] *)

(** The dict [enhancements], in insertion order. *)
Definition enhancements : list (str * str) :=
  [ (lit "bitcoin", lit "Bitcoin continues its market leadership with institutional interest");
    (lit "ethereum", lit "Ethereum shows network strength amid ongoing development");
    (lit "market", lit "Market dynamics reflect broader economic sentiment");
    (lit "price", lit "Price action indicates key technical levels");
    (lit "trading", lit "Trading volumes suggest increased market participation") ].

(** [for key, enhancement in enhancements.items()]. *)
Fixpoint enhance_loop (bullet bullet_lower : str) (items : list (str * str))
    : str :=
  match items with
  | [] => bullet
  | (key, enhancement) :: rest =>
      if contains key bullet_lower && (len bullet <? 50) then enhancement
      else enhance_loop bullet bullet_lower rest
  end.

Definition _enhance_short_bullet (bullet : str) : str :=
  let bullet_lower := lower bullet in
  enhance_loop bullet bullet_lower enhancements.

(** *** [_convert_to_detailed_bullets] *)

(** One turn of [for sentence in sentences]: the bullet appended, or
    nothing on [continue]. *)
Definition bullet_of (sentence : str) : list str :=
  let sentence := strip (rstrip_chars (lit ".!?") sentence) in
  if negb (truthy sentence) then []
  else
    let sentence :=
      if len sentence <? 60 then _enhance_short_bullet sentence
      else sentence in
    [bullet_line sentence].

(** The body of the [try] up to the bullet count being enforced: the list
    [bullets] as the loop leaves it. *)
Definition sentence_bullets (content : str) : Exc (list str) :=
  content <- re_sub (lit "(?:#w+s*)+$") [] content ;;
  let content := strip content in
  let temp :=
    replace (replace (replace content (lit ".") (lit ".|"))
               (lit "!") (lit "!|")) (lit "?") (lit "?|") in
  parts <- split temp (lit "|") ;;
  let raw_sentences := map strip (filter (fun s => truthy (strip s)) parts) in
  let sentences := filter (fun sentence => 15 <? len sentence) raw_sentences in
  Ok (flat_map bullet_of sentences).

(** "Ensure 4-6 bullets". *)
Definition ensure_bullets (bullets : list str) : list str :=
  if len bullets <? 4 then _generate_comprehensive_bullets
  else if 6 <? len bullets then slice_to 6 bullets
  else bullets.

Definition _convert_to_detailed_bullets (content : str) : list str :=
  try_or (bullets <- sentence_bullets content ;; Ok (ensure_bullets bullets))
    _generate_comprehensive_bullets.

(** *** [_format_content_refined] *)

Definition hashtags_line : str := lit "*#CryptoNews #MarketOverview*".
Definition max_len : Z := 800.

(** "Clean citations and extra formatting": the five [re.sub] calls and
    the final [strip], with the patterns as the file has them. *)
Definition cleanup (content : str) : Exc str :=
  clean_content <- re_sub (lit "[d+]") [] content ;;
  clean_content <- re_sub (lit "**(.*?)**") (lit "\u0001") clean_content ;;
  clean_content <- re_sub (lit "*(.*?)*") (lit "\u0001") clean_content ;;
  clean_content <- re_sub (lit "[ \t]+") (lit " ") clean_content ;;
  clean_content <- re_sub (lit "s*+") [] clean_content ;;
  Ok (strip clean_content).

(** The title and the body taken from the cleaned text. *)
Definition split_title (clean_content : str) : Exc (str * str) :=
  lines <- split clean_content [] ;;
  let '(title, body_content) :=
    if truthy lines then
      let first_line := strip (nth 0 lines []) in
      if truthy first_line && (len first_line <? 120)
         && negb (startswith first_line [BULLET])
         && negb (startswith first_line (lit "-"))
      then
        let rest := strip (join [LF] (slice_from 1 lines)) in
        (first_line, if truthy rest then rest else clean_content)
      else ([], clean_content)
    else ([], clean_content) in
  let title := if truthy title then title else lit "Crypto Market Update" in
  Ok (title, body_content).

Definition formatted_header (title date : str) : list str :=
  [ CHART :: lit " **" ++ title ++ lit "**";
    CALENDAR :: lit " *" ++ date ++ lit "*";
    [] ].

(** [result_lines] joined: the header, the bullets, an empty line and the
    hashtag line, under [.join] with the separator of the file, the empty
    string. *)
Definition assemble (header bullets : list str) : str :=
  join [] (header ++ bullets ++ [[]; hashtags_line]).

(** The first [if len(result) > max_len]: the bullets are cut to the budget
    and the text is assembled again. *)
Definition fit_bullets (header bullet_content : list str) : str :=
  let result := assemble header bullet_content in
  if max_len <? len result then
    let available_for_bullets :=
      max_len - (len (join [] header) + 1 + len hashtags_line + 2) in
    let truncated_bullets :=
      _truncate_bullets_refined bullet_content (Z.max 0 available_for_bullets) in
    assemble header truncated_bullets
  else result.

(** The second [if len(result) > max_len]; the [except] branch and the
    fallback content run the same two lines with [800] and [799] written
    out. *)
Definition clamp (result : str) : str :=
  if max_len <? len result then slice_to (max_len - 1) result ++ [ELLIPSIS]
  else result.

(** The string [fallback] of the [except] branch. *)
Definition format_fallback (date : str) : str :=
  (CHART :: lit " **Crypto Market Update**")
  ++ (CALENDAR :: lit " *" ++ date ++ lit "*")
  ++ (BULLET :: lit " Comprehensive market analysis in progress")
  ++ lit "*#CryptoNews #MarketOverview*".

(** The body of the [try]. *)
Definition format_body (content date : str) : Exc str :=
  clean_content <- cleanup content ;;
  tb <- split_title clean_content ;;
  let '(title, body_content) := tb in
  let header := formatted_header title date in
  let bullet_content := _convert_to_detailed_bullets body_content in
  Ok (clamp (fit_bullets header bullet_content)).

Definition _format_content_refined (content date : str) : str :=
  try_or (format_body content date) (clamp (format_fallback date)).

End WithRuntime.

(** *** [_extract_content_simple] *)

#[local] Set Warnings "-register-all".

(** What [response.json()] can return.  A dict keeps its items in
    insertion order, which is the order [values()] iterates in. *)
Inductive json : Type :=
| JNull
| JBool (b : bool)
| JInt (n : Z)
| JFloat (mantissa exponent : Z)
| JStr (s : str)
| JList (items : list json)
| JDict (items : list (str * json)).

(** [obj[key]] for a key that may be absent: [key in obj] is [Some].  A
    Python dict holds a key once; on a list with a key twice the first
    entry answers. *)
Fixpoint dict_get (key : str) (items : list (str * json)) : option json :=
  match items with
  | [] => None
  | (k, v) :: rest => if str_eqb k key then Some v else dict_get key rest
  end.

(** The nested function [find_content]; [None] is Python's [None].  The two
    [for] loops return the first result that is true, that is, a non-empty
    string. *)
Fixpoint find_content (obj : json) : option str :=
  match obj with
  | JStr s => if 50 <? len s then Some s else None
  | JDict items =>
      match dict_get (lit "content") items with
      | Some (JStr content) => Some content
      | _ =>
          (fix values (l : list (str * json)) : option str :=
             match l with
             | [] => None
             | (_, value) :: rest =>
                 match find_content value with
                 | Some result => if truthy result then Some result else values rest
                 | None => values rest
                 end
             end) items
      end
  | JList items =>
      (fix each (l : list json) : option str :=
         match l with
         | [] => None
         | item :: rest =>
             match find_content item with
             | Some result => if truthy result then Some result else each rest
             | None => each rest
             end
         end) items
  | _ => None
  end.

(** The standard shape [data["choices"][0]["message"]["content"]]: [Some]
    when the first [return] of the function is reached. *)
Definition standard_content (data : json) : option str :=
  match data with
  | JDict d =>
      match dict_get (lit "choices") d with
      | Some (JList (JDict first :: _)) =>
          match dict_get (lit "message") first with
          | Some (JDict message) =>
              match dict_get (lit "content") message with
              | Some (JStr content) =>
                  if truthy (strip content) then Some (strip content) else None
              | _ => None
              end
          | _ => None
          end
      | _ => None
      end
  | _ => None
  end.

(** The function on a response whose nesting stays within the recursion
    limit of the interpreter: no operation of the body raises then.
    [extract_content_within] below has the limit and the [except] branch. *)
Definition _extract_content_simple (data : json) : str :=
  match standard_content data with
  | Some content => content
  | None =>
      match find_content data with
      | Some content => if truthy content then strip content else []
      | None => []
      end
  end.

(** [find_content] under the recursion limit: [frames] is the number of
    nested calls the interpreter still allows when the search starts, and
    a call beyond it raises [RecursionError].  A result found before the
    search goes that deep is returned as usual. *)
Fixpoint find_content_within (frames : nat) (obj : json) : Exc (option str) :=
  match frames with
  | O => Raise RecursionError
  | S frames' =>
      match obj with
      | JStr s => Ok (if 50 <? len s then Some s else None)
      | JDict items =>
          match dict_get (lit "content") items with
          | Some (JStr content) => Ok (Some content)
          | _ =>
              (fix values (l : list (str * json)) : Exc (option str) :=
                 match l with
                 | [] => Ok None
                 | (_, value) :: rest =>
                     result <- find_content_within frames' value ;;
                     match result with
                     | Some content =>
                         if truthy content then Ok (Some content) else values rest
                     | None => values rest
                     end
                 end) items
          end
      | JList items =>
          (fix each (l : list json) : Exc (option str) :=
             match l with
             | [] => Ok None
             | item :: rest =>
                 result <- find_content_within frames' item ;;
                 match result with
                 | Some content =>
                     if truthy content then Ok (Some content) else each rest
                 | None => each rest
                 end
             end) items
      | _ => Ok None
      end
  end.

(** [_extract_content_simple] with the recursion limit and the
    [except Exception] branch, which returns the empty string. *)
Definition extract_content_within (frames : nat) (data : json) : str :=
  try_or
    (match standard_content data with
     | Some content => Ok content
     | None =>
         found <- find_content_within frames data ;;
         Ok (match found with
             | Some content => if truthy content then strip content else []
             | None => []
             end)
     end)
    [].

(** *** [_generate_unique_crypto_image] *)

Definition FALLBACK_IMAGE : str :=
  lit "https://images.unsplash.com/photo-1640340434855-6084b1f4901c?w=1200&h=800&fit=crop".

Definition crypto_images (content_hash : str) : list str :=
  [ lit "https://source.unsplash.com/1200x800/?cryptocurrency,trading," ++ content_hash;
    lit "https://source.unsplash.com/1200x800/?bitcoin,market,analysis";
    lit "https://source.unsplash.com/1200x800/?blockchain,finance,charts";
    lit "https://picsum.photos/1200/800?random=" ++ content_hash;
    lit "https://images.unsplash.com/photo-1640340434855-6084b1f4901c?w=1200&h=800&fit=crop";
    lit "https://images.unsplash.com/photo-1559757175-0eb30cd8c063?w=1200&h=800&fit=crop";
    lit "https://images.unsplash.com/photo-1616499370260-485b3e5ed653?w=1200&h=800&fit=crop" ].

(** [hashlib.md5(content.encode()).hexdigest()[:8]] *)
Definition content_hash_of (content : str) : Exc str :=
  data <- Hash.encode content ;;
  Ok (slice_to 8 (Hash.hexdigest (Hash.md5 data))).

(** [crypto_images[hash_int % len(crypto_images)]] *)
Definition pick_image (content_hash : str) : Exc str :=
  let images := crypto_images content_hash in
  hash_int <- Hash.int16 content_hash ;;
  match nth_error images (Z.to_nat (hash_int mod len images)) with
  | Some selected_image => Ok selected_image
  | None => Raise IndexError
  end.

Definition selected_image_of (content : str) : Exc str :=
  content_hash <- content_hash_of content ;;
  pick_image content_hash.

(** [head url] is the outcome of [requests.head(url, timeout=10,
    allow_redirects=True)]: the status code, or an exception. *)
Definition _generate_unique_crypto_image (head : str -> Exc Z) (content : str)
    : str :=
  try_or
    (selected_image <- selected_image_of content ;;
     Ok (match head selected_image with
         | Ok status => if status =? 200 then selected_image else FALLBACK_IMAGE
         | Raise _ => FALLBACK_IMAGE
         end))
    FALLBACK_IMAGE.

(** *** [_create_refined_fallback_content] *)

(** The dict with the keys ["text"], ["image_url"] and ["char_count"]. *)
Record ComposedContent : Type := {
  text : str;
  image_url : str;
  char_count : Z
}.

Definition fallback_bullets : list str :=
  [ bullet_line (lit "Bitcoin trading activity continues with notable institutional transactions reported");
    bullet_line (lit "Ethereum network updates and Layer 2 scaling solutions see increased adoption");
    bullet_line (lit "Major altcoins display varied performance across different market segments");
    bullet_line (lit "Global economic indicators and central bank policies influence crypto market sentiment");
    bullet_line (lit "Regulatory developments in key jurisdictions impact trading volumes and market access");
    bullet_line (lit "Upcoming industry events and protocol upgrades scheduled for near-term implementation") ].

Definition fallback_text (date : str) : str :=
  let formatted_content :=
    (CHART :: lit " **Crypto Market Update**") ++ [LF]
    ++ (CALENDAR :: lit " *" ++ date ++ lit "*") ++ [LF; LF]
    ++ join [LF] fallback_bullets ++ [LF; LF]
    ++ lit "*#CryptoNews #MarketOverview*" in
  if 800 <? len formatted_content
  then slice_to 799 formatted_content ++ [ELLIPSIS]
  else formatted_content.

Definition _create_refined_fallback_content (head : str -> Exc Z) (date : str)
    : ComposedContent :=
  let formatted_content := fallback_text date in
  {| text := formatted_content;
     image_url := _generate_unique_crypto_image head formatted_content;
     char_count := len formatted_content |}.

(** *** [get_crypto_news_content] *)

Record PerplexityClient : Type := {
  api_key : str;
  base_url : str;
  headers : list (str * str)
}.

Definition __init__ (api_key : str) : PerplexityClient :=
  {| api_key := api_key;
     base_url := lit "https://api.perplexity.ai/chat/completions";
     headers :=
       [ (lit "Authorization", lit "Bearer " ++ api_key);
         (lit "Content-Type", lit "application/json");
         (lit "Accept", lit "application/json") ] |}.

(** The request body; [temperature] is the decimal [0.3], kept as the pair
    of its numerator and denominator. *)
Record Payload : Type := {
  model : str;
  messages : list (str * str);
  max_tokens : Z;
  temperature : Z * Z;
  stream : bool
}.

Record Response : Type := {
  status_code : Z;
  json_body : Exc json
}.

(** What one call of the public operation meets outside the process:
    [strftime_now k] is the date string of the [k]-th reading of the clock
    ([datetime.now().strftime("%B %d, %Y")], which does not raise),
    [post] is [requests.post(..., timeout=35)], [head] is [requests.head].
    The calls of [logger] have no effect on the result and are left out. *)
Record World : Type := {
  strftime_now : nat -> str;
  post : str -> list (str * str) -> Payload -> Exc Response;
  head : str -> Exc Z
}.

Section PublicOperation.
Context {RT : Runtime}.

Definition prompt_of (formatted_date : str) : str :=
  lit "Summarize today's top global news about crypto market. "
  ++ lit "Include major global economic events, and highlight any breaking news about near future events. "
  ++ lit "Make an article no more than 800 characters (with spaces). "
  ++ lit "Don't provide any guidance for the market trend." ++ [LF; LF]
  ++ lit "Today's date: " ++ formatted_date.

Definition payload_of (prompt : str) : Payload :=
  {| model := lit "sonar-pro";
     messages :=
       [ (lit "system",
          lit "You are a professional crypto news reporter. Provide factual market summaries "
          ++ lit "focused on news and events. Report what happened and what's upcoming without offering "
          ++ lit "market predictions or investment guidance.");
         (lit "user", prompt) ];
     max_tokens := 350;
     temperature := (3, 10);
     stream := false |}.

(** The body of the outer [try]. *)
Definition news_body (self : PerplexityClient) (w : World)
    : Exc ComposedContent :=
  let formatted_date := strftime_now w 0 in
  let prompt := prompt_of formatted_date in
  let payload := payload_of prompt in
  response <- post w (base_url self) (headers self) payload ;;
  if negb (status_code response =? 200)
  then Ok (_create_refined_fallback_content (head w) formatted_date)
  else
    match json_body response with
    | Raise _ => Ok (_create_refined_fallback_content (head w) formatted_date)
    | Ok data =>
        let content := _extract_content_simple data in
        if negb (truthy content)
        then Ok (_create_refined_fallback_content (head w) formatted_date)
        else
          let formatted_content := _format_content_refined content formatted_date in
          let image_url := _generate_unique_crypto_image (head w) formatted_content in
          Ok {| text := formatted_content;
                image_url := image_url;
                char_count := len formatted_content |}
    end.

Definition get_crypto_news_content (self : PerplexityClient) (w : World)
    : Exc ComposedContent :=
  try_except (news_body self w)
    (fun _ =>
       let today_str := strftime_now w 1 in
       Ok (_create_refined_fallback_content (head w) today_str)).

(** "Compatibility method." *)
Definition get_daily_content (self : PerplexityClient) (w : World)
    (topic : str) : Exc ComposedContent :=
  get_crypto_news_content self w.

(** "Simple connection test."  The probe has no temperature and no stream
    flag; the record carries neutral ones. *)
Definition test_connection (self : PerplexityClient) (w : World) : bool :=
  let payload :=
    {| model := lit "sonar-pro";
       messages := [ (lit "user", lit "Test") ];
       max_tokens := 10;
       temperature := (0, 1);
       stream := false |} in
  try_or
    (response <- post w (base_url self) (headers self) payload ;;
     Ok (status_code response =? 200))
    false.

End PublicOperation.

End Client.
Import Client.

(** ** CPython's [re.sub] and [str.lower] on what this file gives them *)

Module Reference.

(** [str.lower] on ASCII text; the keywords of [enhancements] are ASCII. *)
Definition lower_ascii (s : str) : str :=
  map (fun c => if ((65 <=? c) && (c <=? 90))%N then (c + 32)%N else c) s.

(** [[d+]]: the class of the two characters [d] and [+]. *)
Definition is_d_or_plus (c : char) : bool := ((c =? 100) || (c =? 43))%N.

(** [[ \t]+] replaced by one space. *)
Definition is_blank (c : char) : bool := ((c =? 32) || (c =? 9))%N.

Fixpoint collapse_blanks (s : str) : str :=
  match s with
  | [] => []
  | c :: r =>
      if is_blank c then
        match r with
        | c' :: _ => if is_blank c' then collapse_blanks r
                     else 32%N :: collapse_blanks r
        | [] => [32%N]
        end
      else c :: collapse_blanks r
  end.

(** The repeated group of the hashtag pattern: the automaton of the runs
    of [#], then one or more [w], then any number of [s].  States: 0 at
    the start, before [#]; 1 after [#]; 2 among the [w]s; 3 among the
    [s]s. *)
Fixpoint hashtag_run (state : nat) (s : str) : bool :=
  match s with
  | [] => match state with 2%nat | 3%nat => true | _ => false end
  | c :: r =>
      match state with
      | 0%nat => if (c =? 35)%N then hashtag_run 1 r else false
      | 1%nat => if (c =? 119)%N then hashtag_run 2 r else false
      | 2%nat =>
          if (c =? 119)%N then hashtag_run 2 r
          else if (c =? 115)%N then hashtag_run 3 r
          else if (c =? 35)%N then hashtag_run 1 r
          else false
      | _ =>
          if (c =? 115)%N then hashtag_run 3 r
          else if (c =? 35)%N then hashtag_run 1 r
          else false
      end
  end.

(** [re.sub] with the hashtag pattern and the empty replacement: the
    match starts at the leftmost place from which the runs reach the end
    of [s], or the line feed that ends [s]. *)
Fixpoint drop_hashtag_runs (s : str) : str :=
  if hashtag_run 0 s then []
  else if str_eqb (skipn (length s - 1) s) [LF] then
    if hashtag_run 0 (removelast s) then [LF]
    else
      match s with
      | [] => []
      | c :: r => c :: drop_hashtag_runs r
      end
  else
    match s with
    | [] => []
    | c :: r => c :: drop_hashtag_runs r
    end.

Definition nothing_to_repeat : exn := ReError "nothing to repeat at position 0".

(** The six calls of [re.sub] in the file.  [**(.*?)**] and [*(.*?)*] do
    not compile: a repetition with nothing before it.  [s*+] is read as
    CPython 3.11 and later do, a possessive repetition. *)
Definition re_sub_cpython (pattern repl s : str) : Exc str :=
  if str_eqb pattern (lit "[d+]") && str_eqb repl [] then
    Ok (filter (fun c => negb (is_d_or_plus c)) s)
  else if str_eqb pattern (lit "**(.*?)**") then Raise nothing_to_repeat
  else if str_eqb pattern (lit "*(.*?)*") then Raise nothing_to_repeat
  else if str_eqb pattern (lit "[ \t]+") && str_eqb repl (lit " ") then
    Ok (collapse_blanks s)
  else if str_eqb pattern (lit "s*+") && str_eqb repl [] then
    Ok (filter (fun c => negb (c =? 115)%N) s)
  else if str_eqb pattern (lit "(?:#w+s*)+$") && str_eqb repl [] then
    Ok (drop_hashtag_runs s)
  else Raise (ReError "pattern not used by the client").

Definition cpython : Runtime :=
  {| re_sub := re_sub_cpython; lower := lower_ascii |}.

End Reference.

(** ** The operations as the specification words them *)

Module Spec.

(** A bullet costs its length and one character for the line break. *)
Definition cost (bullet : str) : Z := len bullet + 1.

Fixpoint total_cost (bullets : list str) : Z :=
  match bullets with
  | [] => 0
  | bullet :: rest => cost bullet + total_cost rest
  end.

(** Walking the bullets in order: the bullets taken whole, up to the first
    one whose cost would exceed what is left of the budget. *)
Fixpoint fitting (budget : Z) (bullets : list str) : list str :=
  match bullets with
  | [] => []
  | bullet :: rest =>
      if cost bullet <=? budget then bullet :: fitting (budget - cost bullet) rest
      else []
  end.

(** The shortened version of a bullet for [room] characters: it ends in
    three dots. *)
Definition shortened (room : Z) (bullet : str) : str :=
  rstrip (slice_to (room - 3) bullet) ++ lit "...".

(** The bullets that survive: those taken whole and, when more than 30
    characters are left, the shortened version of the next one. *)
Definition survivors (budget : Z) (bullets : list str) : list str :=
  let kept := fitting budget bullets in
  let room := budget - total_cost kept in
  match nth_error bullets (length kept) with
  | Some next => if 30 <? room then kept ++ [shortened room next] else kept
  | None => kept
  end.

(** The first keyword of the fixed mapping that occurs in the lower-cased
    sentence, with its canned sentence. *)
Definition first_keyword (bullet_lower : str) : option (str * str) :=
  find (fun item => contains (fst item) bullet_lower) enhancements.

(** The matches of the recursive search in the order of a depth-first
    traversal: a string longer than 50 characters; for a mapping, its
    string-valued "content" entry and nothing below it, otherwise the
    matches of its values in order; for a sequence, the matches of its
    elements in order. *)
Fixpoint matches (obj : json) : list str :=
  match obj with
  | JStr s => if 50 <? len s then [s] else []
  | JDict items =>
      match dict_get (lit "content") items with
      | Some (JStr content) => [content]
      | _ => flat_map (fun item => matches (snd item)) items
      end
  | JList items => flat_map matches items
  | _ => []
  end.

(** A result of the search as the caller takes it ([if result:]): the
    empty string counts as no result. *)
Definition counted (result : option str) : option str :=
  match result with
  | Some content => if truthy content then Some content else None
  | None => None
  end.

(** The first match that counts: the search skips an empty string. *)
Definition first_match (obj : json) : option str :=
  List.head (filter truthy (matches obj)).

(** The envelope [{"choices": [{"message": {"content": X}}]}]. *)
Definition well_formed_envelope (X : str) : json :=
  JDict [ (lit "choices",
           JList [ JDict [ (lit "message",
                            JDict [ (lit "content", JStr X) ]) ] ]) ].

End Spec.

(** ** Induction on [json] and the ranges of the digest *)

(** Structural induction through the lists nested in [JList] and [JDict]. *)
Section JsonInduction.
Variable P : json -> Prop.
Hypothesis Hnull : P JNull.
Hypothesis Hbool : forall b, P (JBool b).
Hypothesis Hint : forall n, P (JInt n).
Hypothesis Hfloat : forall m e, P (JFloat m e).
Hypothesis Hstr : forall s, P (JStr s).
Hypothesis Hlist : forall items, Forall P items -> P (JList items).
Hypothesis Hdict :
  forall items, Forall (fun item => P (snd item)) items -> P (JDict items).

Fixpoint json_induction (obj : json) : P obj :=
  match obj with
  | JNull => Hnull
  | JBool b => Hbool b
  | JInt n => Hint n
  | JFloat m e => Hfloat m e
  | JStr s => Hstr s
  | JList items =>
      Hlist items
        ((fix all (l : list json) : Forall P l :=
            match l with
            | [] => Forall_nil P
            | x :: r => Forall_cons x (json_induction x) (all r)
            end) items)
  | JDict items =>
      Hdict items
        ((fix all (l : list (str * json)) : Forall (fun item => P (snd item)) l :=
            match l with
            | [] => Forall_nil _
            | (k, v) :: r => Forall_cons (k, v) (json_induction v) (all r)
            end) items)
  end.

End JsonInduction.

(** Every string value held somewhere in a [json] value, and every key of
    its mappings. *)
Fixpoint strings_of (obj : json) : list str :=
  match obj with
  | JStr s => [s]
  | JList items => flat_map strings_of items
  | JDict items => flat_map (fun item => strings_of (snd item)) items
  | _ => []
  end.

Fixpoint keys_of (obj : json) : list str :=
  match obj with
  | JList items => flat_map keys_of items
  | JDict items => flat_map (fun item => fst item :: keys_of (snd item)) items
  | _ => []
  end.

(** The nesting of a [json] value: the number of nested calls a search
    through all of it makes. *)
Fixpoint depth (obj : json) : nat :=
  match obj with
  | JList items => S (fold_right (fun item m => Nat.max (depth item) m) 0%nat items)
  | JDict items =>
      S (fold_right (fun item m => Nat.max (depth (snd item)) m) 0%nat items)
  | _ => 1%nat
  end.

(** A code point that UTF-8 can carry: below [0x110000] and no surrogate. *)
Definition encodable (c : char) : bool :=
  ((c <? 0x110000) && negb ((0xD800 <=? c) && (c <=? 0xDFFF)))%N.

(** A bullet line: the bullet sign, a space and a sentence that is not
    empty. *)
Definition is_bullet (b : str) : Prop :=
  exists body : str, b = bullet_line body /\ body <> [].

(** The first line of every text the client composes. *)
Definition title_line : str := CHART :: lit " **Crypto Market Update**".

(** A byte; a hexadecimal digit, as [int(s, 16)] accepts it. *)
Definition byte_range (b : Z) : Prop := 0 <= b < 256.
Definition hex_char (c : char) : Prop :=
  exists v, Hash.digit_value c = Some v /\ 0 <= v < 16.

(** * Properties *)

(** ** Python primitives *)

Lemma len_app {A} (a b : list A) : len (a ++ b) = len a + len b.
Proof. unfold len. rewrite length_app. lia. Qed.

Lemma len_nonneg {A} (l : list A) : 0 <= len l.
Proof. unfold len. lia. Qed.

Lemma len_cons {A} (x : A) (l : list A) : len (x :: l) = 1 + len l.
Proof. unfold len. simpl length. lia. Qed.

Lemma slice_to_nonneg {A} (n : Z) (s : list A) :
  0 <= n -> slice_to n s = firstn (Z.to_nat n) s.
Proof.
  intros Hn. unfold slice_to.
  destruct (Z.ltb_spec n 0) as [Hlt | _]; [lia | reflexivity].
Qed.

Lemma len_slice_to {A} (n : Z) (s : list A) :
  0 <= n -> len (slice_to n s) = Z.min n (len s).
Proof.
  intros Hn. rewrite slice_to_nonneg by assumption.
  unfold len. rewrite length_firstn. lia.
Qed.

(** ** The final clamp *)

Lemma clamp_over (r : str) :
  max_len < len r -> clamp r = slice_to 799 r ++ [ELLIPSIS].
Proof.
  intros H. unfold clamp. apply Z.ltb_lt in H. rewrite H. reflexivity.
Qed.

Lemma clamp_under (r : str) : len r <= max_len -> clamp r = r.
Proof.
  intros H. unfold clamp.
  destruct (Z.ltb_spec max_len (len r)); [lia | reflexivity].
Qed.

Lemma len_clamp (r : str) : len (clamp r) <= 800.
Proof.
  unfold clamp. change max_len with 800.
  destruct (Z.ltb_spec 800 (len r)) as [H | H]; [| exact H].
  rewrite len_app, len_slice_to by lia. change (len [ELLIPSIS]) with 1. lia.
Qed.

Lemma len_fallback_text (date : str) : len (fallback_text date) <= 800.
Proof.
  unfold fallback_text.
  match goal with |- context [800 <? len ?x] => set (formatted_content := x) end.
  destruct (Z.ltb_spec 800 (len formatted_content)) as [H | H]; [| exact H].
  rewrite len_app, len_slice_to by lia. change (len [ELLIPSIS]) with 1. lia.
Qed.

Section FormatFacts.
Context {RT : Runtime}.

Lemma format_body_clamped (content date r : str) :
  format_body content date = Ok r -> exists assembled, r = clamp assembled.
Proof.
  unfold format_body, bind. intros H.
  destruct (cleanup content) as [clean |]; [| discriminate].
  destruct (split_title clean) as [[title body] |]; [| discriminate].
  injection H as <-. eexists. reflexivity.
Qed.

Lemma len_format (content date : str) :
  len (_format_content_refined content date) <= 800.
Proof.
  unfold _format_content_refined, try_or.
  destruct (format_body content date) as [r |] eqn:E.
  - apply format_body_clamped in E as [assembled ->]. apply len_clamp.
  - apply len_clamp.
Qed.

End FormatFacts.

(** C1.  For every content string and every date string the text of the
    formatting stage is the clamp of some assembled string and has at most
    800 code points, and so has the text of the fallback content; and when
    the string assembled after the bullet truncation is longer than 800,
    the clamp returns its first 799 code points followed by one ellipsis
    character, 800 in all. *)
Theorem text_at_most_800 :
  (forall (RT : Runtime) (content date : str),
      len (_format_content_refined content date) <= 800
      /\ exists assembled : str,
           _format_content_refined content date = clamp assembled)
  /\ (forall (head : str -> Exc Z) (date : str),
         len (text (_create_refined_fallback_content head date)) <= 800)
  /\ (forall (header bullet_content : list str),
         let result := fit_bullets header bullet_content in
         800 < len result ->
         clamp result = slice_to 799 result ++ [ELLIPSIS]
         /\ len (slice_to 799 result) = 799
         /\ len (clamp result) = 800).
Proof.
  split; [| split].
  - intros RT content date. split; [apply len_format |].
    unfold _format_content_refined, try_or.
    destruct (format_body content date) as [r |] eqn:E.
    + apply (format_body_clamped content date r E).
    + eexists. reflexivity.
  - intros head date. simpl. apply len_fallback_text.
  - intros header bullet_content result H.
    assert (Hs : len (slice_to 799 result) = 799)
      by (rewrite len_slice_to by lia; lia).
    rewrite (clamp_over result H). repeat split; [exact Hs |].
    rewrite len_app, Hs. reflexivity.
Qed.

(** Four bullets of 500 letters under an ordinary header: the second does
    not fit the budget, the first three come back and the clamp cuts. *)
Lemma text_at_most_800_witness :
  let header := formatted_header (lit "Crypto Market Update") (lit "January 01, 2025") in
  let bullet_content := repeat (bullet_line (repeat 97%N 500)) 4 in
  let result := fit_bullets header bullet_content in
  800 < len result
  /\ clamp result = slice_to 799 result ++ [ELLIPSIS]
  /\ len (slice_to 799 result) = 799
  /\ len (clamp result) = 800.
Proof.
  intros header bullet_content result.
  assert (H : 800 < len result) by (vm_compute; reflexivity).
  split; [exact H |].
  exact (proj2 (proj2 text_at_most_800) header bullet_content H).
Defined.

(** ** Truncation of the bullets *)

Lemma fitting_prefix (bullets : list str) (budget : Z) :
  Spec.fitting budget bullets
  = firstn (length (Spec.fitting budget bullets)) bullets.
Proof.
  revert budget. induction bullets as [| b rest IH]; intros budget; simpl.
  - reflexivity.
  - destruct (Spec.cost b <=? budget); simpl; [f_equal; apply IH | reflexivity].
Qed.

Lemma fitting_cost (bullets : list str) (budget : Z) :
  0 <= budget -> Spec.total_cost (Spec.fitting budget bullets) <= budget.
Proof.
  revert budget. induction bullets as [| b rest IH]; intros budget Hb; simpl.
  - exact Hb.
  - destruct (Z.leb_spec (Spec.cost b) budget) as [Hfit | Hno]; simpl.
    + specialize (IH (budget - Spec.cost b)). lia.
    + exact Hb.
Qed.

Lemma fitting_next (bullets : list str) (budget : Z) (next : str) :
  nth_error bullets (length (Spec.fitting budget bullets)) = Some next ->
  budget - Spec.total_cost (Spec.fitting budget bullets) < Spec.cost next.
Proof.
  revert budget. induction bullets as [| b rest IH]; intros budget; simpl.
  - discriminate.
  - destruct (Z.leb_spec (Spec.cost b) budget) as [Hfit | Hno]; simpl.
    + intros H. specialize (IH _ H). lia.
    + intros [= ->]. lia.
Qed.

Lemma survivors_cons (b : str) (rest : list str) (budget : Z) :
  Spec.survivors budget (b :: rest)
  = if Spec.cost b <=? budget
    then b :: Spec.survivors (budget - Spec.cost b) rest
    else if 30 <? budget then [Spec.shortened budget b] else [].
Proof.
  unfold Spec.survivors. simpl.
  destruct (Spec.cost b <=? budget); simpl.
  - rewrite Z.sub_add_distr.
    destruct (nth_error rest _) as [next |]; [| reflexivity].
    destruct (30 <? _); reflexivity.
  - rewrite Z.sub_0_r. reflexivity.
Qed.

Lemma truncate_loop_survivors (max_chars : Z) (bullets : list str) :
  forall (current_length : Z) (result : list str),
    truncate_loop max_chars bullets current_length result
    = result ++ Spec.survivors (max_chars - current_length) bullets.
Proof.
  induction bullets as [| b rest IH]; intros cur res.
  - simpl. rewrite app_nil_r. reflexivity.
  - rewrite survivors_cons. simpl truncate_loop. unfold Spec.cost.
    destruct (Z.leb_spec (cur + (len b + 1)) max_chars) as [Hfit | Hno];
      destruct (Z.leb_spec (len b + 1) (max_chars - cur)) as [Hc | Hc];
      try lia.
    + rewrite IH, <- app_assoc. simpl. do 3 f_equal. lia.
    + destruct (30 <? max_chars - cur); [reflexivity |].
      rewrite app_nil_r. reflexivity.
Qed.

Lemma truncate_positive (bullets : list str) (max_chars : Z) :
  0 < max_chars ->
  _truncate_bullets_refined bullets max_chars
  = let survivors := Spec.survivors max_chars bullets in
    if len survivors <? 3 then slice_to 3 bullets else survivors.
Proof.
  intros Hpos. unfold _truncate_bullets_refined.
  destruct (Z.leb_spec max_chars 0) as [H | _]; [lia |].
  rewrite truncate_loop_survivors, Z.sub_0_r. simpl app.
  cbv zeta. destruct (len (Spec.survivors max_chars bullets) <? 3) eqn:E; simpl.
  - destruct bullets as [| b rest]; [| reflexivity]. simpl.
    unfold Spec.survivors in E |- *. simpl in *. reflexivity.
  - reflexivity.
Qed.

(** C3, as the claim has it, fails when the budget is zero: the header and
    the hashtag line alone pass the ceiling (here through a date of 800
    characters), the assembled text exceeds 800 characters, fewer than 3
    bullets survive, and the helper returns no bullet instead of the first
    three. *)
Lemma truncate_zero_budget_no_rescue :
  let header :=
    formatted_header (lit "Crypto Market Update") (repeat 120%N 800) in
  let bullets := _generate_comprehensive_bullets in
  let available_for_bullets :=
    max_len - (len (join [] header) + 1 + len hashtags_line + 2) in
  max_len < len (assemble header bullets)
  /\ _truncate_bullets_refined bullets (Z.max 0 available_for_bullets) = []
  /\ _truncate_bullets_refined bullets (Z.max 0 available_for_bullets)
     <> slice_to 3 bullets.
Proof.
  intros header bullets available_for_bullets.
  split; [vm_compute; reflexivity |].
  split; [vm_compute; reflexivity | vm_compute; discriminate].
Qed.

(** C3, amended for the budget of zero, the least the caller passes.  The
    bullets taken whole are a prefix of the list, in order; each costs its
    length plus one and together they stay within the budget; the walk
    stops before the first bullet that costs more than what is left; that
    bullet is added in a shortened version ending in three dots only when
    more than 30 characters are left; when fewer than 3 bullets survive
    and the budget is positive, the first 3 original bullets are returned
    instead; with a budget of zero no bullet is returned. *)
Theorem truncate_bullets_walk (bullets : list str) (max_chars : Z) :
  0 <= max_chars ->
  let kept := Spec.fitting max_chars bullets in
  let room := max_chars - Spec.total_cost kept in
  let survivors :=
    match nth_error bullets (length kept) with
    | Some next =>
        if 30 <? room
        then kept ++ [rstrip (slice_to (room - 3) next) ++ lit "..."]
        else kept
    | None => kept
    end in
  kept = firstn (length kept) bullets
  /\ Spec.total_cost kept <= max_chars
  /\ (forall next : str,
         nth_error bullets (length kept) = Some next -> room < Spec.cost next)
  /\ _truncate_bullets_refined bullets max_chars
     = (if max_chars =? 0 then []
        else if len survivors <? 3 then slice_to 3 bullets
        else survivors).
Proof.
  intros Hpos kept room survivors. repeat split.
  - apply fitting_prefix.
  - apply fitting_cost. exact Hpos.
  - intros next. apply fitting_next.
  - destruct (Z.eqb_spec max_chars 0) as [-> | Hne]; [reflexivity |].
    apply truncate_positive. lia.
Qed.

(** Four bullets of 300 characters and a budget of 700: two are taken
    whole, 98 characters are left, the third comes shortened. *)
Lemma truncate_bullets_walk_witness :
  let bullet := bullet_line (repeat 97%N 298) in
  let bullets := repeat bullet 4 in
  0 <= 700
  /\ _truncate_bullets_refined bullets 700
     = [bullet; bullet; slice_to 95 bullet ++ lit "..."].
Proof.
  intros bullet bullets.
  assert (H : 0 <= 700) by discriminate.
  split; [exact H |].
  destruct (truncate_bullets_walk bullets 700 H) as (_ & _ & _ & ->).
  vm_compute. reflexivity.
Defined.

(** C10.  For a non-empty bullet list and a budget of zero or less the
    helper returns the empty list; in particular it does not return the
    first three bullets. *)
Theorem truncate_nonpositive_budget (bullets : list str) (max_chars : Z) :
  bullets <> [] ->
  max_chars <= 0 ->
  _truncate_bullets_refined bullets max_chars = []
  /\ _truncate_bullets_refined bullets max_chars <> slice_to 3 bullets.
Proof.
  intros Hne Hmax. unfold _truncate_bullets_refined.
  destruct (Z.leb_spec max_chars 0) as [_ | H]; [| lia].
  split; [reflexivity |].
  destruct bullets as [| b rest]; [contradiction | discriminate].
Qed.

Lemma truncate_nonpositive_budget_witness :
  _generate_comprehensive_bullets <> []
  /\ -5 <= 0
  /\ _truncate_bullets_refined _generate_comprehensive_bullets (-5) = []
  /\ _truncate_bullets_refined _generate_comprehensive_bullets (-5)
     <> slice_to 3 _generate_comprehensive_bullets.
Proof.
  assert (Hne : _generate_comprehensive_bullets <> []) by discriminate.
  assert (Hmax : -5 <= 0) by discriminate.
  split; [exact Hne |]. split; [exact Hmax |].
  exact (truncate_nonpositive_budget _generate_comprehensive_bullets (-5) Hne Hmax).
Defined.

(** X4.  With a positive budget a non-empty list never comes back empty: the
    survivors are at least 3, or the first bullets take their place. *)
Lemma truncate_positive_nonempty (bullets : list str) (max_chars : Z) :
  bullets <> [] -> 0 < max_chars ->
  _truncate_bullets_refined bullets max_chars <> [].
Proof.
  intros Hne Hpos. rewrite truncate_positive by exact Hpos. cbv zeta.
  destruct (Z.ltb_spec (len (Spec.survivors max_chars bullets)) 3) as [H | H].
  - destruct bullets as [| b rest]; [contradiction | discriminate].
  - destruct (Spec.survivors max_chars bullets); [| discriminate].
    unfold len in H. simpl in H. lia.
Qed.

Lemma truncate_positive_nonempty_witness :
  let bullets := [bullet_line (repeat 97%N 500)] in
  bullets <> [] /\ 0 < 40
  /\ _truncate_bullets_refined bullets 40 <> [].
Proof.
  intros bullets.
  assert (Hne : bullets <> []) by discriminate.
  assert (Hpos : 0 < 40) by reflexivity.
  split; [exact Hne |]. split; [exact Hpos |].
  exact (truncate_positive_nonempty bullets 40 Hne Hpos).
Defined.

(** ** Bulletization *)

Lemma len_comprehensive : len _generate_comprehensive_bullets = 6.
Proof. reflexivity. Qed.

Lemma ensure_bullets_bounds (bullets : list str) :
  4 <= len (ensure_bullets bullets) <= 6.
Proof.
  unfold ensure_bullets.
  destruct (Z.ltb_spec (len bullets) 4) as [H4 | H4].
  - rewrite len_comprehensive. lia.
  - destruct (Z.ltb_spec 6 (len bullets)) as [H6 | H6].
    + rewrite len_slice_to by lia. lia.
    + lia.
Qed.

Section BulletFacts.
Context {RT : Runtime}.

Lemma convert_unfold (content : str) :
  _convert_to_detailed_bullets content
  = match sentence_bullets content with
    | Ok produced => ensure_bullets produced
    | Raise _ => _generate_comprehensive_bullets
    end.
Proof.
  unfold _convert_to_detailed_bullets, try_or, bind.
  destruct (sentence_bullets content); reflexivity.
Qed.

Lemma enhance_loop_first (bullet bullet_lower : str) (items : list (str * str)) :
  enhance_loop bullet bullet_lower items
  = if len bullet <? 50
    then match find (fun item => contains (fst item) bullet_lower) items with
         | Some (_, enhancement) => enhancement
         | None => bullet
         end
    else bullet.
Proof.
  induction items as [| [key enhancement] rest IH]; simpl.
  - destruct (len bullet <? 50); reflexivity.
  - rewrite IH.
    destruct (contains key bullet_lower), (len bullet <? 50); reflexivity.
Qed.

End BulletFacts.

(** C4.  For every body text the bulletization returns between 4 and 6
    bullets: when the sentences gave fewer than 4 bullets the result is the
    fixed set of 6 comprehensive bullets, when they gave more than 6 it is
    the first 6 of them, and otherwise it is the bullets themselves. *)
Theorem bullets_between_4_and_6 (RT : Runtime) (content : str) :
  let bullets := _convert_to_detailed_bullets content in
  4 <= len bullets <= 6
  /\ len _generate_comprehensive_bullets = 6
  /\ forall produced : list str,
       sentence_bullets content = Ok produced ->
       (len produced < 4 -> bullets = _generate_comprehensive_bullets)
       /\ (6 < len produced -> bullets = firstn 6 produced)
       /\ (4 <= len produced <= 6 -> bullets = produced).
Proof.
  intros bullets. subst bullets. rewrite convert_unfold.
  split; [| split; [reflexivity |]].
  - destruct (sentence_bullets content);
      [apply ensure_bullets_bounds | rewrite len_comprehensive; lia].
  - intros produced ->. unfold ensure_bullets. repeat split.
    + intros H. destruct (Z.ltb_spec (len produced) 4); [reflexivity | lia].
    + intros H. destruct (Z.ltb_spec (len produced) 4); [lia |].
      destruct (Z.ltb_spec 6 (len produced)); [reflexivity | lia].
    + intros H. destruct (Z.ltb_spec (len produced) 4); [lia |].
      destruct (Z.ltb_spec 6 (len produced)); [lia | reflexivity].
Qed.

(** Seven sentences of 76 characters: seven bullets, of which the first
    six are kept. *)
Lemma bullets_between_4_and_6_witness :
  let sentence :=
    lit "Regulators in several jurisdictions published new guidance for exchanges today" in
  let content := concat (repeat (sentence ++ lit ". ") 7) in
  let produced := repeat (bullet_line sentence) 7 in
  sentence_bullets (RT := Reference.cpython) content = Ok produced
  /\ 6 < len produced
  /\ _convert_to_detailed_bullets (RT := Reference.cpython) content
     = firstn 6 produced.
Proof.
  intros sentence content produced.
  assert (E : sentence_bullets (RT := Reference.cpython) content = Ok produced)
    by (vm_compute; reflexivity).
  assert (H : 6 < len produced) by reflexivity.
  split; [exact E |]. split; [exact H |].
  exact (proj1 (proj2 (proj2 (proj2
           (bullets_between_4_and_6 Reference.cpython content)) produced E)) H).
Defined.

(** C8, as the claim has it, fails between 50 and 59 characters: this
    sentence of 55 characters contains the keyword "bitcoin" and is kept as
    it is. *)
Lemma sentence_of_55_not_enhanced :
  let sentence :=
    lit "Bitcoin rallied sharply after the latest inflation data" in
  len (strip (rstrip_chars (lit ".!?") (sentence ++ lit "."))) = 55
  /\ contains (lit "bitcoin") (Reference.lower_ascii sentence) = true
  /\ bullet_of (RT := Reference.cpython) (sentence ++ lit ".")
     = [bullet_line sentence]
  /\ sentence_bullets (RT := Reference.cpython) (sentence ++ lit ".")
     = Ok [bullet_line sentence].
Proof. vm_compute. repeat split; reflexivity. Qed.

(** C8, amended to the bound the helper applies.  A retained sentence
    that, once its trailing terminal punctuation is stripped, has fewer
    than 50 characters becomes the canned sentence of the first keyword of
    the fixed mapping that occurs in its lower-cased text, when there is
    one; a sentence of 50 characters or more is never substituted. *)
Theorem enhancement_under_50 (RT : Runtime) (sentence : str) :
  let stripped := strip (rstrip_chars (lit ".!?") sentence) in
  stripped <> [] ->
  bullet_of sentence
  = [ bullet_line
        (if len stripped <? 50
         then match Spec.first_keyword (lower stripped) with
              | Some (_, canned) => canned
              | None => stripped
              end
         else stripped) ].
Proof.
  intros stripped Hne. unfold bullet_of. fold stripped.
  destruct stripped as [| c s] eqn:E; [contradiction |].
  rewrite <- E. replace (truthy stripped) with true by (rewrite E; reflexivity).
  simpl negb. cbv iota. unfold _enhance_short_bullet.
  rewrite enhance_loop_first. unfold Spec.first_keyword.
  destruct (Z.ltb_spec (len stripped) 60) as [H60 | H60]; [reflexivity |].
  destruct (Z.ltb_spec (len stripped) 50) as [H50 | H50]; [lia | reflexivity].
Qed.

(** A sentence of 28 characters with three keywords: "ethereum" comes first
    in the mapping. *)
Lemma enhancement_under_50_witness :
  let sentence := lit "The market price of Ethereum." in
  strip (rstrip_chars (lit ".!?") sentence) <> []
  /\ bullet_of (RT := Reference.cpython) sentence
     = [ bullet_line
           (lit "Ethereum shows network strength amid ongoing development") ].
Proof.
  intros sentence.
  assert (Hne : strip (rstrip_chars (lit ".!?") sentence) <> [])
    by (vm_compute; discriminate).
  split; [exact Hne |].
  rewrite (enhancement_under_50 Reference.cpython sentence Hne).
  vm_compute. reflexivity.
Defined.

(** ** Extraction *)

Lemma head_filter_app (a b : list str) :
  List.head (filter truthy (a ++ b))
  = match List.head (filter truthy a) with
    | Some x => Some x
    | None => List.head (filter truthy b)
    end.
Proof.
  induction a as [| x a IH]; simpl; [reflexivity |].
  destruct (truthy x); [reflexivity | exact IH].
Qed.

Lemma long_is_truthy (s : str) : 50 < len s -> truthy s = true.
Proof. destruct s; [discriminate | reflexivity]. Qed.

Lemma each_first_match (items : list json) :
  Forall (fun x => Spec.counted (find_content x) = Spec.first_match x) items ->
  (fix each (l : list json) : option str :=
     match l with
     | [] => None
     | item :: rest =>
         match find_content item with
         | Some result => if truthy result then Some result else each rest
         | None => each rest
         end
     end) items
  = List.head (filter truthy (flat_map Spec.matches items)).
Proof.
  induction 1 as [| x rest Hx _ IH]; [reflexivity |].
  simpl flat_map. rewrite head_filter_app.
  unfold Spec.first_match in Hx. rewrite <- Hx, <- IH.
  destruct (find_content x) as [r |]; simpl; [| reflexivity].
  destruct (truthy r); reflexivity.
Qed.

Lemma values_first_match (items : list (str * json)) :
  Forall (fun item => Spec.counted (find_content (snd item))
                      = Spec.first_match (snd item)) items ->
  (fix values (l : list (str * json)) : option str :=
     match l with
     | [] => None
     | (_, value) :: rest =>
         match find_content value with
         | Some result => if truthy result then Some result else values rest
         | None => values rest
         end
     end) items
  = List.head (filter truthy (flat_map (fun item => Spec.matches (snd item)) items)).
Proof.
  induction 1 as [| [k v] rest Hx _ IH]; [reflexivity |].
  simpl flat_map. rewrite head_filter_app.
  unfold Spec.first_match in Hx. simpl snd in Hx. rewrite <- Hx, <- IH.
  destruct (find_content v) as [r |]; simpl; [| reflexivity].
  destruct (truthy r); reflexivity.
Qed.

Lemma counted_head (l : list str) :
  Spec.counted (List.head (filter truthy l)) = List.head (filter truthy l).
Proof.
  induction l as [| x l IH]; [reflexivity |]. simpl.
  destruct (truthy x) eqn:E; [simpl; rewrite E; reflexivity | exact IH].
Qed.

Lemma find_content_first_match (obj : json) :
  Spec.counted (find_content obj) = Spec.first_match obj.
Proof.
  induction obj using json_induction; try reflexivity.
  - unfold Spec.first_match. simpl.
    destruct (Z.ltb_spec 50 (len s)) as [H | H]; [| reflexivity].
    simpl. rewrite (long_is_truthy s H). reflexivity.
  - unfold Spec.first_match. simpl find_content. simpl Spec.matches.
    rewrite (each_first_match items H). apply counted_head.
  - unfold Spec.first_match. simpl find_content. simpl Spec.matches.
    destruct (dict_get (lit "content") items) as [[| | | | c | |] |];
      try (rewrite (values_first_match items H); apply counted_head).
    simpl. destruct (truthy c); reflexivity.
Qed.

Lemma extract_unfold (data : json) :
  standard_content data = None ->
  _extract_content_simple data
  = match Spec.first_match data with
    | Some content => strip content
    | None => []
    end.
Proof.
  intros E. unfold _extract_content_simple. rewrite E.
  rewrite <- find_content_first_match.
  destruct (find_content data) as [c |]; [| reflexivity].
  simpl. destruct (truthy c); reflexivity.
Qed.

Lemma within_agrees (frames : nat) :
  forall (obj : json) (result : option str),
    find_content_within frames obj = Ok result -> result = find_content obj.
Proof.
  induction frames as [| frames IH]; intros obj result; [discriminate |].
  assert (Heach : forall (l : list json) (r : option str),
    (fix each (l : list json) : Exc (option str) :=
       match l with
       | [] => Ok None
       | item :: rest =>
           result <- find_content_within frames item ;;
           match result with
           | Some content =>
               if truthy content then Ok (Some content) else each rest
           | None => each rest
           end
       end) l = Ok r ->
    r = (fix each (l : list json) : option str :=
           match l with
           | [] => None
           | item :: rest =>
               match find_content item with
               | Some result => if truthy result then Some result else each rest
               | None => each rest
               end
           end) l).
  { induction l as [| x rest IHl]; intros r; [intros [= <-]; reflexivity |].
    unfold bind. destruct (find_content_within frames x) as [r0 |] eqn:E;
      [| discriminate].
    rewrite <- (IH x r0 E). destruct r0 as [c |]; [| apply IHl].
    destruct (truthy c); [intros [= <-]; reflexivity | apply IHl]. }
  assert (Hvalues : forall (l : list (str * json)) (r : option str),
    (fix values (l : list (str * json)) : Exc (option str) :=
       match l with
       | [] => Ok None
       | (_, value) :: rest =>
           result <- find_content_within frames value ;;
           match result with
           | Some content =>
               if truthy content then Ok (Some content) else values rest
           | None => values rest
           end
       end) l = Ok r ->
    r = (fix values (l : list (str * json)) : option str :=
           match l with
           | [] => None
           | (_, value) :: rest =>
               match find_content value with
               | Some result => if truthy result then Some result else values rest
               | None => values rest
               end
           end) l).
  { induction l as [| [k x] rest IHl]; intros r; [intros [= <-]; reflexivity |].
    unfold bind. destruct (find_content_within frames x) as [r0 |] eqn:E;
      [| discriminate].
    rewrite <- (IH x r0 E). destruct r0 as [c |]; [| apply IHl].
    destruct (truthy c); [intros [= <-]; reflexivity | apply IHl]. }
  destruct obj as [| b | n | m e | s | items | items]; simpl;
    try (intros [= <-]; reflexivity).
  - apply Heach.
  - destruct (dict_get (lit "content") items) as [[| | | | c | |] |];
      try apply Hvalues.
    intros [= <-]. reflexivity.
Qed.

Lemma within_enough (frames : nat) :
  forall obj : json,
    (depth obj <= frames)%nat ->
    exists result, find_content_within frames obj = Ok result.
Proof.
  induction frames as [| frames IH]; intros obj Hd.
  - destruct obj; simpl in Hd; lia.
  - destruct obj as [| b | n | m e | s | items | items]; simpl;
      try (eexists; reflexivity).
    + simpl in Hd. apply le_S_n in Hd.
      induction items as [| x rest IHl]; [eexists; reflexivity |].
      simpl in Hd.
      destruct (IH x ltac:(lia)) as [r0 ->]. unfold bind.
      destruct r0 as [c |]; [| apply IHl; lia].
      destruct (truthy c); [eexists; reflexivity | apply IHl; lia].
    + destruct (dict_get (lit "content") items) as [[| | | | c | |] |];
        try (eexists; reflexivity);
        simpl in Hd; apply le_S_n in Hd;
        (induction items as [| [k x] rest IHl]; [eexists; reflexivity |];
         simpl in Hd;
         destruct (IH x ltac:(lia)) as [r0 ->]; unfold bind;
         destruct r0 as [c' |]; [| apply IHl; lia];
         destruct (truthy c'); [eexists; reflexivity | apply IHl; lia]).
Qed.

Lemma extract_within_unfold (frames : nat) (data : json) :
  standard_content data = None ->
  extract_content_within frames data
  = match find_content_within frames data with
    | Ok _ =>
        match Spec.first_match data with
        | Some content => strip content
        | None => []
        end
    | Raise _ => []
    end.
Proof.
  intros E. unfold extract_content_within, try_or, bind. rewrite E.
  destruct (find_content_within frames data) as [found |] eqn:F; [| reflexivity].
  rewrite <- find_content_first_match, <- (within_agrees frames data found F).
  destruct found as [c |]; [| reflexivity].
  simpl. destruct (truthy c); reflexivity.
Qed.

(** Within the limit the two extractions agree. *)
Lemma extract_within_limit (frames : nat) (data : json) :
  (depth data <= frames)%nat ->
  extract_content_within frames data = _extract_content_simple data.
Proof.
  intros Hd. unfold extract_content_within, _extract_content_simple, try_or, bind.
  destruct (standard_content data); [reflexivity |].
  destruct (within_enough frames data Hd) as [found F]. rewrite F.
  rewrite <- (within_agrees frames data found F). reflexivity.
Qed.

(** C6, as the claim has it, fails where the first match is an empty
    string: the mapping under "a" carries a string-valued "content", the
    empty string, which the call on that mapping returns; the loop over the
    values of the outer mapping passes it over ([if result:]) and the
    string of 60 characters under "b" comes back. *)
Lemma empty_content_does_not_win :
  let long := repeat 120%N 60 in
  let inner := JDict [ (lit "content", JStr []) ] in
  let data := JDict [ (lit "a", inner); (lit "b", JStr long) ] in
  find_content_within 10 inner = Ok (Some [])
  /\ List.head (Spec.matches data) = Some []
  /\ find_content_within 10 data = Ok (Some long)
  /\ extract_content_within 10 data = long.
Proof. vm_compute. repeat split; reflexivity. Qed.

(** C6, amended: the first match that is not empty wins, within the
    recursion limit.  On the recursive path the search accepts a string
    longer than 50 characters, returns the string-valued "content" entry of
    a mapping as it is, before looking at the values of the mapping, and
    otherwise goes through the values of a mapping and the elements of a
    sequence in order; whenever it returns, what its caller takes from it
    is the first non-empty match of the depth-first traversal; it returns
    whenever the nesting is within the calls the interpreter allows.  When
    the standard shape is absent, extraction returns that first non-empty
    match, stripped by the final [content.strip()], or the empty string
    when there is none or when the search raised. *)
Theorem find_content_depth_first :
  (forall (frames : nat) (s : str),
      50 < len s -> find_content_within (S frames) (JStr s) = Ok (Some s))
  /\ (forall (frames : nat) (items : list (str * json)) (content : str),
         dict_get (lit "content") items = Some (JStr content) ->
         find_content_within (S frames) (JDict items) = Ok (Some content))
  /\ (forall (frames : nat) (obj : json) (result : option str),
         find_content_within frames obj = Ok result ->
         Spec.counted result = Spec.first_match obj)
  /\ (forall (frames : nat) (obj : json),
         (depth obj <= frames)%nat ->
         exists result : option str, find_content_within frames obj = Ok result)
  /\ (forall (frames : nat) (data : json),
         standard_content data = None ->
         extract_content_within frames data
         = match find_content_within frames data with
           | Ok _ =>
               match Spec.first_match data with
               | Some content => strip content
               | None => []
               end
           | Raise _ => []
           end).
Proof.
  split; [| split; [| split; [| split]]].
  - intros frames s H. simpl. apply Z.ltb_lt in H. rewrite H. reflexivity.
  - intros frames items content H. simpl. rewrite H. reflexivity.
  - intros frames obj result H.
    rewrite (within_agrees frames obj result H). apply find_content_first_match.
  - intros frames obj. apply within_enough.
  - apply extract_within_unfold.
Qed.

(** A string of 51 letters; a mapping whose "content" has blanks around
    it; a sequence whose second element holds the content three mappings
    deep, after an element with an empty "content": five calls deep, found
    with five calls allowed, lost with three. *)
Lemma find_content_depth_first_witness :
  let long := repeat 97%N 51 in
  let padded := lit "  padded  " in
  let nested :=
    JList [ JDict [ (lit "content", JStr []) ];
            JDict [ (lit "a", JInt 1);
                    (lit "b", JDict [ (lit "c",
                       JDict [ (lit "content", JStr (lit " deep ")) ]) ]) ];
            JStr long ] in
  (50 < len long /\ find_content_within 1 (JStr long) = Ok (Some long))
  /\ (dict_get (lit "content") [ (lit "content", JStr padded) ] = Some (JStr padded)
      /\ find_content_within 1 (JDict [ (lit "content", JStr padded) ])
         = Ok (Some padded))
  /\ (find_content_within 5 nested = Ok (Some (lit " deep "))
      /\ Spec.counted (Some (lit " deep ")) = Spec.first_match nested)
  /\ ((depth nested <= 5)%nat
      /\ exists result, find_content_within 5 nested = Ok result)
  /\ (standard_content nested = None
      /\ extract_content_within 5 nested = lit "deep"
      /\ extract_content_within 3 nested = []).
Proof.
  intros long padded nested.
  destruct find_content_depth_first
    as (Hstr & Hdict & Hfirst & Henough & Hextract).
  assert (H1 : 50 < len long) by reflexivity.
  assert (H2 : dict_get (lit "content") [ (lit "content", JStr padded) ]
               = Some (JStr padded)) by reflexivity.
  assert (H3 : find_content_within 5 nested = Ok (Some (lit " deep ")))
    by (vm_compute; reflexivity).
  assert (H4 : (depth nested <= 5)%nat) by (vm_compute; repeat constructor).
  assert (H5 : standard_content nested = None) by reflexivity.
  split; [exact (conj H1 (Hstr 0%nat long H1)) |].
  split; [exact (conj H2 (Hdict 0%nat _ padded H2)) |].
  split; [exact (conj H3 (Hfirst 5%nat nested _ H3)) |].
  split; [exact (conj H4 (Henough 5%nat nested H4)) |].
  split; [exact H5 |]. split.
  - rewrite (Hextract 5%nat nested H5). vm_compute. reflexivity.
  - rewrite (Hextract 3%nat nested H5). vm_compute. reflexivity.
Defined.

(** C7.  For every string [X] that is not blank after trimming,
    extraction applied to the envelope
    [{"choices": [{"message": {"content": X}}]}] takes the standard shape
    and returns exactly the trimmed [X]. *)
Theorem extract_well_formed (X : str) :
  strip X <> [] ->
  standard_content (Spec.well_formed_envelope X) = Some (strip X)
  /\ _extract_content_simple (Spec.well_formed_envelope X) = strip X.
Proof.
  intros H.
  assert (T : truthy (strip X) = true)
    by (destruct (strip X); [contradiction | reflexivity]).
  assert (S : standard_content (Spec.well_formed_envelope X) = Some (strip X)).
  { change (standard_content (Spec.well_formed_envelope X))
      with (if truthy (strip X) then Some (strip X) else None).
    rewrite T. reflexivity. }
  split; [exact S |].
  unfold _extract_content_simple. rewrite S. reflexivity.
Qed.

Lemma extract_well_formed_witness :
  let X := lit "  Bitcoin rose.  " ++ [LF] in
  strip X <> []
  /\ strip X = lit "Bitcoin rose."
  /\ standard_content (Spec.well_formed_envelope X) = Some (strip X)
  /\ _extract_content_simple (Spec.well_formed_envelope X) = strip X.
Proof.
  intros X.
  assert (H : strip X <> []) by (vm_compute; discriminate).
  split; [exact H |]. split; [vm_compute; reflexivity |].
  exact (extract_well_formed X H).
Defined.

(** A blank [X] goes through the recursive search and gives the empty
    string, which is its trimmed form as well. *)
Lemma well_formed_blank (X : str) :
  strip X = [] -> _extract_content_simple (Spec.well_formed_envelope X) = [].
Proof.
  intros E. unfold _extract_content_simple.
  change (standard_content (Spec.well_formed_envelope X))
    with (if truthy (strip X) then Some (strip X) else None).
  rewrite E. simpl.
  destruct X as [| c X']; [reflexivity |].
  change (find_content (Spec.well_formed_envelope (c :: X')))
    with (Some (c :: X')).
  simpl. exact E.
Qed.

(** ** Image selection *)

Lemma bytes_le_range (n : nat) (x : Z) : Forall byte_range (Hash.bytes_le n x).
Proof.
  unfold Hash.bytes_le. apply Forall_map, Forall_forall. intros j _.
  unfold byte_range. change 0xFF with (Z.ones 8).
  rewrite Z.land_ones by lia. apply Z.mod_pos_bound. reflexivity.
Qed.

Lemma md5_range (msg : list Z) : Forall byte_range (Hash.md5 msg).
Proof.
  unfold Hash.md5. destruct (Hash.absorb _ _ _) as [[[a b] c] d].
  repeat (apply Forall_app; split); apply bytes_le_range.
Qed.

Lemma md5_length (msg : list Z) : length (Hash.md5 msg) = 16%nat.
Proof.
  unfold Hash.md5. destruct (Hash.absorb _ _ _) as [[[a b] c] d]. reflexivity.
Qed.

Lemma digit_value_hex_digit (n : Z) :
  0 <= n < 16 -> Hash.digit_value (Hash.hex_digit n) = Some n.
Proof.
  intros H. rewrite <- (Z2Nat.id n) by lia.
  assert (L : (Z.to_nat n < 16)%nat) by lia.
  generalize dependent (Z.to_nat n). clear H. intros k L.
  do 16 (destruct k as [| k]; [reflexivity |]). lia.
Qed.

Lemma hexdigest_chars (bs : list Z) :
  Forall byte_range bs -> Forall hex_char (Hash.hexdigest bs).
Proof.
  induction 1 as [| b bs Hb _ IH]; [constructor |].
  unfold byte_range in Hb. simpl.
  constructor; [| constructor; [| exact IH]].
  - exists (b / 16). assert (R : 0 <= b / 16 < 16)
      by (split; [apply Z.div_pos; lia | apply Z.div_lt_upper_bound; lia]).
    split; [apply digit_value_hex_digit |]; exact R.
  - exists (b mod 16). assert (R : 0 <= b mod 16 < 16)
      by (apply Z.mod_pos_bound; lia).
    split; [apply digit_value_hex_digit |]; exact R.
Qed.

Lemma hexdigest_length (bs : list Z) :
  length (Hash.hexdigest bs) = (2 * length bs)%nat.
Proof. induction bs as [| b bs IH]; simpl; [reflexivity | rewrite IH; lia]. Qed.

Lemma Forall_take {A} (P : A -> Prop) (n : nat) (l : list A) :
  Forall P l -> Forall P (firstn n l).
Proof.
  intros H. revert n. induction H as [| x l Hx _ IH]; intros [| n]; simpl;
    constructor; [exact Hx | apply IH].
Qed.

Lemma int16_aux_hex (s : str) :
  Forall hex_char s ->
  forall acc, 0 <= acc -> exists v, Hash.int16_aux acc s = Ok v /\ 0 <= v.
Proof.
  induction 1 as [| c s (d & Hd & Hr) _ IH]; intros acc Hacc;
    cbn [Hash.int16_aux].
  - exists acc. split; [reflexivity | exact Hacc].
  - rewrite Hd. apply IH. lia.
Qed.

Lemma content_hash_int (content content_hash : str) :
  content_hash_of content = Ok content_hash ->
  exists hash_int, Hash.int16 content_hash = Ok hash_int /\ 0 <= hash_int.
Proof.
  unfold content_hash_of, bind.
  destruct (Hash.encode content) as [data |]; [| discriminate].
  intros [= <-]. rewrite slice_to_nonneg by lia.
  assert (Hhex : Forall hex_char (firstn (Z.to_nat 8) (Hash.hexdigest (Hash.md5 data))))
    by (apply Forall_take, hexdigest_chars, md5_range).
  assert (Hlen : length (firstn (Z.to_nat 8) (Hash.hexdigest (Hash.md5 data))) = 8%nat)
    by (rewrite length_firstn, hexdigest_length, md5_length; reflexivity).
  destruct (firstn (Z.to_nat 8) (Hash.hexdigest (Hash.md5 data))) as [| c s] eqn:E;
    [discriminate |].
  unfold Hash.int16. apply int16_aux_hex; [exact Hhex | lia].
Qed.

Lemma pick_image_index (content_hash : str) (hash_int : Z) :
  Hash.int16 content_hash = Ok hash_int ->
  0 <= hash_int mod 7 < 7
  /\ pick_image content_hash
     = Ok (nth (Z.to_nat (hash_int mod 7)) (crypto_images content_hash) []).
Proof.
  intros E.
  assert (R : 0 <= hash_int mod 7 < 7) by (apply Z.mod_pos_bound; lia).
  split; [exact R |].
  unfold pick_image, bind. rewrite E.
  change (len (crypto_images content_hash)) with 7.
  destruct (nth_error (crypto_images content_hash) (Z.to_nat (hash_int mod 7)))
    as [url |] eqn:N.
  - f_equal. symmetry. apply nth_error_nth. exact N.
  - apply nth_error_None in N. simpl in N. lia.
Qed.

(** C9.  The candidate URL is a function of the short digest alone: texts
    with the same first eight hexadecimal digits of MD5 select the same
    candidate; the index is the digest read as a hexadecimal number modulo
    7, always within the pool of seven; and two selections over the same
    text whose probes both confirm the candidate return that candidate. *)
Theorem image_selection_deterministic (content : str) :
  (forall other : str,
      content_hash_of other = content_hash_of content ->
      selected_image_of other = selected_image_of content)
  /\ (forall content_hash : str,
         content_hash_of content = Ok content_hash ->
         exists hash_int : Z,
           Hash.int16 content_hash = Ok hash_int
           /\ 0 <= hash_int mod 7 < 7
           /\ length (crypto_images content_hash) = 7%nat
           /\ selected_image_of content
              = Ok (nth (Z.to_nat (hash_int mod 7)) (crypto_images content_hash) []))
  /\ (forall (head1 head2 : str -> Exc Z) (selected : str),
         selected_image_of content = Ok selected ->
         head1 selected = Ok 200 ->
         head2 selected = Ok 200 ->
         _generate_unique_crypto_image head1 content = selected
         /\ _generate_unique_crypto_image head2 content = selected).
Proof.
  split; [| split].
  - intros other E. unfold selected_image_of. rewrite E. reflexivity.
  - intros content_hash E.
    destruct (content_hash_int content content_hash E) as (hash_int & Hint & _).
    exists hash_int. destruct (pick_image_index content_hash hash_int Hint) as [R P].
    repeat split; try tauto; try reflexivity.
    unfold selected_image_of, bind. rewrite E. exact P.
  - intros head1 head2 selected E H1 H2.
    unfold _generate_unique_crypto_image, try_or, bind.
    rewrite E, H1, H2. simpl. split; reflexivity.
Qed.

(** Two texts with the short digest [aa53748c], index 2 of the pool, and
    two probes that confirm the candidate. *)
Lemma image_selection_deterministic_witness :
  let content := lit "news 4507" in
  let other := lit "news 14663" in
  let selected :=
    lit "https://source.unsplash.com/1200x800/?blockchain,finance,charts" in
  let head1 := fun _ : str => Ok 200 : Exc Z in
  let head2 := fun url : str =>
    if str_eqb url selected then Ok 200 else Raise RequestException in
  content_hash_of content = Ok (lit "aa53748c")
  /\ content_hash_of other = content_hash_of content
  /\ selected_image_of other = selected_image_of content
  /\ selected_image_of content = Ok selected
  /\ (exists hash_int : Z,
         Hash.int16 (lit "aa53748c") = Ok hash_int
         /\ 0 <= hash_int mod 7 < 7
         /\ length (crypto_images (lit "aa53748c")) = 7%nat
         /\ selected_image_of content
            = Ok (nth (Z.to_nat (hash_int mod 7)) (crypto_images (lit "aa53748c")) []))
  /\ _generate_unique_crypto_image head1 content = selected
  /\ _generate_unique_crypto_image head2 content = selected.
Proof.
  intros content other selected head1 head2.
  destruct (image_selection_deterministic content) as (Hsame & Hindex & Hprobe).
  assert (E : content_hash_of content = Ok (lit "aa53748c"))
    by (vm_compute; reflexivity).
  assert (E' : content_hash_of other = content_hash_of content)
    by (vm_compute; reflexivity).
  assert (S : selected_image_of content = Ok selected)
    by (vm_compute; reflexivity).
  assert (H1 : head1 selected = Ok 200) by reflexivity.
  assert (H2 : head2 selected = Ok 200) by (vm_compute; reflexivity).
  split; [exact E |]. split; [exact E' |].
  split; [exact (Hsame other E') |]. split; [exact S |].
  split; [exact (Hindex _ E) |].
  exact (Hprobe head1 head2 selected S H1 H2).
Defined.

(** ** The public operation *)

(** C2.  Whatever the request, the parsing of the body, the extraction and
    the formatting do, and whatever they raise, [get_crypto_news_content]
    raises nothing and returns a record with the fields [text],
    [image_url] and [char_count], where [char_count] is the length of
    [text]; the text has at most 800 code points and the image is the one
    selected for it. *)
Theorem get_crypto_news_content_returns
    (RT : Runtime) (self : PerplexityClient) (w : World) :
  exists result : ComposedContent,
    get_crypto_news_content self w = Ok result
    /\ char_count result = len (text result)
    /\ len (text result) <= 800
    /\ image_url result = _generate_unique_crypto_image (head w) (text result).
Proof.
  unfold get_crypto_news_content, try_except, news_body, bind.
  destruct (post w _ _ _) as [response | e].
  - destruct (negb (status_code response =? 200)).
    + eexists. split; [reflexivity |]. simpl. split; [reflexivity |].
      split; [apply len_fallback_text | reflexivity].
    + destruct (json_body response) as [data | e].
      * destruct (negb (truthy (_extract_content_simple data))).
        -- eexists. split; [reflexivity |]. simpl. split; [reflexivity |].
           split; [apply len_fallback_text | reflexivity].
        -- eexists. split; [reflexivity |]. simpl. split; [reflexivity |].
           split; [apply len_format | reflexivity].
      * eexists. split; [reflexivity |]. simpl. split; [reflexivity |].
        split; [apply len_fallback_text | reflexivity].
  - eexists. split; [reflexivity |]. simpl. split; [reflexivity |].
    split; [apply len_fallback_text | reflexivity].
Qed.

(** ** The cleanup as the file has it *)

(** Under CPython the second [re.sub] of the cleanup never returns: its
    pattern does not compile. *)
Lemma cleanup_cpython_raises (content : str) :
  cleanup (RT := Reference.cpython) content = Raise Reference.nothing_to_repeat.
Proof. reflexivity. Qed.

(** Whatever the engine does, [split] with the empty separator raises, and
    the formatting returns the string of its [except] branch. *)
Lemma format_takes_except_branch (RT : Runtime) (content date : str) :
  _format_content_refined content date = clamp (format_fallback date).
Proof.
  unfold _format_content_refined, try_or, format_body, bind.
  destruct (cleanup content); reflexivity.
Qed.

(** C5.  On a text with markup the cleanup does not return a cleaned text
    at all: [re.sub] raises on the pattern of the bold markup, and the
    formatting stage answers with its static fallback. *)
Theorem cleanup_raises_on_markup :
  let content := lit "**Bitcoin** rose 5% [1]" in
  let date := lit "January 01, 2025" in
  cleanup (RT := Reference.cpython) content
  = Raise (ReError "nothing to repeat at position 0")
  /\ _format_content_refined (RT := Reference.cpython) content date
     = format_fallback date.
Proof.
  split; [apply cleanup_cpython_raises |].
  rewrite format_takes_except_branch. vm_compute. reflexivity.
Qed.

(** * Further properties of the client *)

(** ** [_truncate_bullets_refined] *)

Lemma cost_positive (b : str) : 0 < Spec.cost b.
Proof. unfold Spec.cost. pose proof (len_nonneg b). lia. Qed.

Lemma total_cost_nonneg (l : list str) : 0 <= Spec.total_cost l.
Proof.
  induction l as [| b l IH]; simpl; [lia |]. pose proof (cost_positive b). lia.
Qed.

Lemma total_cost_app (a b : list str) :
  Spec.total_cost (a ++ b) = Spec.total_cost a + Spec.total_cost b.
Proof. induction a as [| x a IH]; simpl; [reflexivity | rewrite IH; lia]. Qed.

Lemma fitting_all (bullets : list str) (budget : Z) :
  Spec.total_cost bullets <= budget -> Spec.fitting budget bullets = bullets.
Proof.
  revert budget. induction bullets as [| b rest IH]; intros budget H; simpl in *.
  - reflexivity.
  - pose proof (total_cost_nonneg rest).
    destruct (Z.leb_spec (Spec.cost b) budget) as [_ | Hno]; [| lia].
    f_equal. apply IH. lia.
Qed.

Lemma survivors_all (bullets : list str) (budget : Z) :
  Spec.total_cost bullets <= budget -> Spec.survivors budget bullets = bullets.
Proof.
  intros H. unfold Spec.survivors. rewrite (fitting_all bullets budget H).
  replace (nth_error bullets (length bullets)) with (@None str); [reflexivity |].
  symmetry. apply nth_error_None. lia.
Qed.

Lemma len_join_LF (l : list str) :
  l <> [] -> len (join [LF] l) = Spec.total_cost l - 1.
Proof.
  induction l as [| p rest IH]; [contradiction |]. intros _.
  destruct rest as [| q rest'].
  - simpl. unfold Spec.cost. lia.
  - change (join [LF] (p :: q :: rest'))
      with (p ++ [LF] ++ join [LF] (q :: rest')).
    rewrite !len_app, IH by discriminate.
    change (len [LF]) with 1. simpl Spec.total_cost. unfold Spec.cost. lia.
Qed.

Lemma len_lstrip_with (p : char -> bool) (s : str) :
  len (lstrip_with p s) <= len s.
Proof.
  induction s as [| c s IH]; simpl; [lia |].
  destruct (p c); [rewrite len_cons; lia | lia].
Qed.

Lemma len_rstrip_with (p : char -> bool) (s : str) :
  len (rstrip_with p s) <= len s.
Proof.
  unfold rstrip_with. pose proof (len_lstrip_with p (rev s)) as H.
  unfold len in *. rewrite length_rev in *. exact H.
Qed.

Lemma len_shortened (room : Z) (bullet : str) :
  3 <= room -> len (Spec.shortened room bullet) <= room.
Proof.
  intros H. unfold Spec.shortened, rstrip. rewrite len_app.
  pose proof (len_rstrip_with isspace (slice_to (room - 3) bullet)) as Hr.
  rewrite len_slice_to in Hr by lia. change (len (lit "...")) with 3. lia.
Qed.

Lemma survivors_cost (bullets : list str) (budget : Z) :
  0 <= budget -> Spec.total_cost (Spec.survivors budget bullets) <= budget + 1.
Proof.
  intros Hb. unfold Spec.survivors.
  pose proof (fitting_cost bullets budget Hb) as Hk.
  destruct (nth_error bullets (length (Spec.fitting budget bullets))) as [next |];
    [| lia].
  destruct (Z.ltb_spec 30 (budget - Spec.total_cost (Spec.fitting budget bullets)))
    as [Hroom | _]; [| lia].
  rewrite total_cost_app.
  set (short := Spec.shortened _ next).
  assert (Hs : len short
               <= budget - Spec.total_cost (Spec.fitting budget bullets))
    by (apply len_shortened; lia).
  change (Spec.total_cost [short]) with (len short + 1 + 0). lia.
Qed.

Lemma fitting_incl (bullets : list str) (budget : Z) (b : str) :
  In b (Spec.fitting budget bullets) -> In b bullets.
Proof.
  revert budget. induction bullets as [| x rest IH]; intros budget; simpl.
  - tauto.
  - destruct (Spec.cost x <=? budget); simpl; [| tauto].
    intros [-> | H]; [left; reflexivity | right; apply (IH _ H)].
Qed.

Lemma fitting_length (bullets : list str) (budget : Z) :
  (length (Spec.fitting budget bullets) <= length bullets)%nat.
Proof.
  revert budget. induction bullets as [| x rest IH]; intros budget; simpl.
  - lia.
  - destruct (Spec.cost x <=? budget); simpl; [specialize (IH (budget - Spec.cost x)) |]; lia.
Qed.

Lemma take_incl {A} (n : nat) (l : list A) (x : A) : In x (firstn n l) -> In x l.
Proof.
  revert n. induction l as [| y l IH]; intros [| n]; simpl; try tauto.
  intros [-> | H]; [left; reflexivity | right; apply (IH n H)].
Qed.

(** X1.  With a positive budget that covers every bullet and its line break,
    the truncation returns the list as it is. *)
Theorem truncate_keeps_what_fits (bullets : list str) (max_chars : Z) :
  0 < max_chars ->
  Spec.total_cost bullets <= max_chars ->
  _truncate_bullets_refined bullets max_chars = bullets.
Proof.
  intros Hpos Hfit. rewrite truncate_positive by exact Hpos. cbv zeta.
  rewrite (survivors_all bullets max_chars Hfit).
  destruct (Z.ltb_spec (len bullets) 3) as [H | H]; [| reflexivity].
  rewrite slice_to_nonneg by lia. apply firstn_all2. unfold len in H. lia.
Qed.

Lemma truncate_keeps_what_fits_witness :
  0 < 700
  /\ Spec.total_cost _generate_comprehensive_bullets <= 700
  /\ _truncate_bullets_refined _generate_comprehensive_bullets 700
     = _generate_comprehensive_bullets.
Proof.
  assert (H1 : 0 < 700) by reflexivity.
  assert (H2 : Spec.total_cost _generate_comprehensive_bullets <= 700)
    by (vm_compute; discriminate).
  split; [exact H1 |]. split; [exact H2 |].
  exact (truncate_keeps_what_fits _generate_comprehensive_bullets 700 H1 H2).
Defined.

Lemma walk_fits (bullets : list str) (max_chars : Z) :
  0 < max_chars ->
  len (join [LF] (truncate_loop max_chars bullets 0 [])) <= max_chars.
Proof.
  intros Hpos. rewrite truncate_loop_survivors, Z.sub_0_r. simpl app.
  pose proof (survivors_cost bullets max_chars ltac:(lia)) as Hc.
  destruct (Spec.survivors max_chars bullets) as [| b rest] eqn:E.
  - simpl. unfold len. simpl. lia.
  - rewrite len_join_LF by discriminate. lia.
Qed.

(** X2.  With a positive budget the bullets the walk keeps, joined by
    line feeds, have at most [max_chars] characters; and when the walk
    keeps at least three bullets they are what the truncation returns, so
    the result fits the budget. *)
Theorem truncated_bullets_fit (bullets : list str) (max_chars : Z) :
  0 < max_chars ->
  let walked := truncate_loop max_chars bullets 0 [] in
  len (join [LF] walked) <= max_chars
  /\ (3 <= len walked ->
      _truncate_bullets_refined bullets max_chars = walked
      /\ len (join [LF] (_truncate_bullets_refined bullets max_chars))
         <= max_chars).
Proof.
  intros Hpos walked. pose proof (walk_fits bullets max_chars Hpos) as Hfit.
  split; [exact Hfit |]. intros H3.
  assert (E : _truncate_bullets_refined bullets max_chars = walked).
  { unfold _truncate_bullets_refined.
    destruct (Z.leb_spec max_chars 0) as [Hle | _]; [lia |].
    fold walked. destruct (Z.ltb_spec (len walked) 3) as [Hlt | _]; [lia |].
    reflexivity. }
  split; [exact E | rewrite E; exact Hfit].
Qed.

(** Four bullets of 10 characters and a budget of 40: the first three are
    kept by the walk, without the rescue, and fit. *)
Lemma truncated_bullets_fit_witness :
  let bullets := repeat (bullet_line (repeat 97%N 8)) 4 in
  let walked := truncate_loop 40 bullets 0 [] in
  0 < 40
  /\ 3 <= len walked
  /\ walked = slice_to 3 bullets
  /\ _truncate_bullets_refined bullets 40 = walked
  /\ len (join [LF] (_truncate_bullets_refined bullets 40)) <= 40.
Proof.
  intros bullets walked.
  assert (H1 : 0 < 40) by reflexivity.
  assert (H2 : 3 <= len walked) by (vm_compute; discriminate).
  split; [exact H1 |]. split; [exact H2 |].
  split; [vm_compute; reflexivity |].
  exact (proj2 (truncated_bullets_fit bullets 40 H1) H2).
Defined.

(** X3.  The truncation never returns more bullets than it was given, and each
    bullet it returns is one of the given bullets or ends in three dots. *)
Theorem truncated_bullets_origin (bullets : list str) (max_chars : Z) :
  (length (_truncate_bullets_refined bullets max_chars) <= length bullets)%nat
  /\ Forall (fun b => In b bullets \/ exists body : str, b = body ++ lit "...")
       (_truncate_bullets_refined bullets max_chars).
Proof.
  destruct (Z.leb_spec max_chars 0) as [Hle | Hpos].
  - unfold _truncate_bullets_refined.
    destruct (Z.leb_spec max_chars 0); [| lia]. split; [simpl; lia | constructor].
  - rewrite truncate_positive by exact Hpos. cbv zeta.
    destruct (len (Spec.survivors max_chars bullets) <? 3).
    + rewrite slice_to_nonneg by lia. split.
      * rewrite length_firstn. lia.
      * apply Forall_forall. intros b Hb. left. apply (take_incl _ _ _ Hb).
    + unfold Spec.survivors.
      pose proof (fitting_length bullets max_chars) as Hlen.
      assert (Hkept : Forall (fun b => In b bullets
                                       \/ exists body : str, b = body ++ lit "...")
                        (Spec.fitting max_chars bullets)).
      { apply Forall_forall. intros b Hb. left. apply (fitting_incl _ _ _ Hb). }
      destruct (nth_error bullets (length (Spec.fitting max_chars bullets)))
        as [next |] eqn:N; [| split; assumption].
      destruct (30 <? _); [| split; assumption].
      assert (Hlt : (length (Spec.fitting max_chars bullets) < length bullets)%nat)
        by (apply nth_error_Some; rewrite N; discriminate).
      split.
      * rewrite length_app. simpl. lia.
      * apply Forall_app. split; [exact Hkept |].
        constructor; [| constructor]. right. eexists. reflexivity.
Qed.

(** ** [_expand_bullets] *)

Lemma expand_loop_extends (comps : list str) :
  forall expanded : list str,
  exists added : list str,
    expand_loop comps expanded = expanded ++ added
    /\ incl added comps
    /\ (added <> [] -> len (join [LF] (expanded ++ added)) < 800)
    /\ (forall (before : list str) (b : str) (after : list str),
           added = before ++ b :: after ->
           already_there b (expanded ++ before) = false).
Proof.
  induction comps as [| c rest IH]; intros expanded.
  - exists []. rewrite app_nil_r. repeat split.
    + intros x [].
    + intros H. contradiction H. reflexivity.
    + intros [| x before] b after E; discriminate.
  - simpl expand_loop.
    destruct (Z.ltb_spec (len (join [LF] (expanded ++ [c]))) 800) as [Hroom | _];
      [destruct (already_there c expanded) eqn:Hdup |]; simpl negb; cbv iota.
    + destruct (IH expanded) as (added & E & Hin & Hlen & Hnew).
      exists added. repeat split; try assumption.
      intros x Hx. right. apply (Hin x Hx).
    + destruct (IH (expanded ++ [c])) as (added & E & Hin & Hlen & Hnew).
      exists (c :: added). rewrite E, <- app_assoc. repeat split.
      * intros x [<- | Hx]; [left; reflexivity | right; apply (Hin x Hx)].
      * intros _. destruct added as [| a added'].
        -- exact Hroom.
        -- rewrite <- app_assoc in Hlen. apply Hlen. discriminate.
      * intros [| x before] b after Eq; injection Eq as <- ->.
        -- rewrite app_nil_r. exact Hdup.
        -- specialize (Hnew before b after eq_refl).
           rewrite <- app_assoc in Hnew. exact Hnew.
    + destruct (IH expanded) as (added & E & Hin & Hlen & Hnew).
      exists added. repeat split; try assumption.
      intros x Hx. right. apply (Hin x Hx).
Qed.

(** X5.  The expansion only appends: the result is the given list followed by
    comprehensive bullets; nothing is appended when fewer than 50
    characters are needed; once something is appended the result, joined by
    line feeds, is shorter than 800; and no bullet is appended whose
    characters 2 to 20 occur in those of a bullet already in the list. *)
Theorem expand_bullets_extends (bullets : list str) (additional_chars_needed : Z) :
  exists added : list str,
    _expand_bullets bullets additional_chars_needed = bullets ++ added
    /\ incl added _generate_comprehensive_bullets
    /\ (additional_chars_needed < 50 -> added = [])
    /\ (added <> [] ->
        len (join [LF] (_expand_bullets bullets additional_chars_needed)) < 800)
    /\ (forall (before : list str) (b : str) (after : list str),
           added = before ++ b :: after ->
           already_there b (bullets ++ before) = false).
Proof.
  unfold _expand_bullets.
  destruct (Z.ltb_spec additional_chars_needed 50) as [Hlt | Hge].
  - exists []. rewrite app_nil_r. repeat split.
    + intros x [].
    + intros H. contradiction H. reflexivity.
    + intros [| x before] b after E; discriminate.
  - destruct (expand_loop_extends _generate_comprehensive_bullets bullets)
      as (added & E & Hin & Hlen & Hnew).
    exists added. cbv zeta. rewrite E. repeat split; try assumption. lia.
Qed.

(** Two bullets and 100 characters needed: the first two comprehensive
    bullets are there already, the other four are appended. *)
Lemma expand_bullets_extends_witness :
  let bullets := firstn 2 _generate_comprehensive_bullets in
  let added := skipn 2 _generate_comprehensive_bullets in
  _expand_bullets bullets 100 = bullets ++ added
  /\ added <> []
  /\ len (join [LF] (_expand_bullets bullets 100)) < 800
  /\ already_there (nth 2 _generate_comprehensive_bullets []) (bullets ++ []) = false.
Proof.
  intros bullets added.
  destruct (expand_bullets_extends bullets 100) as (added' & E & _ & _ & Hlen & Hnew).
  assert (E' : _expand_bullets bullets 100 = bullets ++ added)
    by (vm_compute; reflexivity).
  assert (Ea : added' = added)
    by (apply (app_inv_head bullets); rewrite <- E; exact E').
  assert (Hne : added <> []) by (vm_compute; discriminate).
  split; [exact E' |]. split; [exact Hne |]. subst added'. split.
  - exact (Hlen Hne).
  - exact (Hnew [] (nth 2 _generate_comprehensive_bullets [])
             (skipn 3 _generate_comprehensive_bullets) eq_refl).
Defined.

(** ** The clamp at 800 characters *)

(** X6.  The clamp changes nothing in a text that is already clamped, and what
    it returns agrees with the text it was given on the first 799 code
    points. *)
Theorem clamp_again (r : str) :
  clamp (clamp r) = clamp r
  /\ slice_to 799 (clamp r) = slice_to 799 r.
Proof.
  split.
  - apply clamp_under. apply len_clamp.
  - unfold clamp. change max_len with 800.
    destruct (Z.ltb_spec 800 (len r)) as [H | H]; [| reflexivity].
    change (slice_to (800 - 1) r) with (slice_to 799 r).
    rewrite !slice_to_nonneg by lia.
    rewrite firstn_app, firstn_firstn, Nat.min_id, length_firstn.
    replace (Z.to_nat 799 - Nat.min (Z.to_nat 799) (length r))%nat with 0%nat
      by (unfold len in H; lia).
    simpl. apply app_nil_r.
Qed.

(** ** [_create_refined_fallback_content] *)

Lemma fallback_text_shape (date : str) :
  (CHART :: lit " **Crypto Market Update**") ++ [LF]
  ++ (CALENDAR :: lit " *" ++ date ++ lit "*") ++ [LF; LF]
  ++ join [LF] fallback_bullets ++ [LF; LF] ++ lit "*#CryptoNews #MarketOverview*"
  = (title_line ++ LF :: CALENDAR :: lit " *") ++ date
    ++ (lit "*" ++ [LF; LF] ++ join [LF] fallback_bullets ++ [LF; LF] ++ hashtags_line).
Proof.
  change ((CALENDAR :: lit " *" ++ date ++ lit "*") ++ [LF; LF]
          ++ join [LF] fallback_bullets ++ [LF; LF]
          ++ lit "*#CryptoNews #MarketOverview*")
    with (CALENDAR :: lit " *" ++ (date ++ lit "*") ++ [LF; LF]
          ++ join [LF] fallback_bullets ++ [LF; LF] ++ hashtags_line).
  rewrite <- (app_assoc date). reflexivity.
Qed.

(** X7.  For a date of at most 229 characters the fallback text is not cut: it
    is the title line, the date line, the six fallback bullets and the
    hashtag line, 571 characters and the date. *)
Theorem fallback_text_whole (date : str) :
  len date <= 229 ->
  fallback_text date
  = (title_line ++ LF :: CALENDAR :: lit " *") ++ date
    ++ (lit "*" ++ [LF; LF] ++ join [LF] fallback_bullets ++ [LF; LF] ++ hashtags_line)
  /\ len (fallback_text date) = 571 + len date.
Proof.
  intros H. unfold fallback_text. rewrite fallback_text_shape.
  set (before := title_line ++ LF :: CALENDAR :: lit " *").
  set (after := lit "*" ++ [LF; LF] ++ join [LF] fallback_bullets ++ [LF; LF]
                ++ hashtags_line).
  assert (L : len (before ++ date ++ after) = 571 + len date).
  { rewrite !len_app. change (len before) with 30. change (len after) with 541.
    lia. }
  destruct (Z.ltb_spec 800 (len (before ++ date ++ after))) as [Hover | _];
    [lia |].
  split; [reflexivity | exact L].
Qed.

Lemma fallback_text_whole_witness :
  let date := lit "September 30, 2025" in
  len date <= 229
  /\ len (fallback_text date) = 571 + len date.
Proof.
  intros date.
  assert (H : len date <= 229) by (vm_compute; discriminate).
  split; [exact H |]. exact (proj2 (fallback_text_whole date H)).
Defined.

Lemma startswith_app (p rest : str) : startswith (p ++ rest) p = true.
Proof.
  induction p as [| c p IH]; simpl; [destruct rest; reflexivity |].
  rewrite N.eqb_refl. exact IH.
Qed.

Lemma clamp_keeps_prefix (p x : str) :
  len p <= 799 -> exists rest : str, clamp (p ++ x) = p ++ rest.
Proof.
  intros Hp. unfold clamp. change max_len with 800.
  destruct (800 <? len (p ++ x)); [| exists x; reflexivity].
  change (slice_to (800 - 1) (p ++ x)) with (slice_to 799 (p ++ x)).
  rewrite slice_to_nonneg by lia. rewrite firstn_app.
  rewrite (firstn_all2 (n := Z.to_nat 799) p) by (unfold len in Hp; lia).
  rewrite <- app_assoc. eexists. reflexivity.
Qed.

Lemma fallback_text_title (date : str) :
  exists rest : str, fallback_text date = title_line ++ rest.
Proof.
  change (fallback_text date)
    with (clamp (title_line ++ [LF]
                 ++ (CALENDAR :: lit " *" ++ date ++ lit "*") ++ [LF; LF]
                 ++ join [LF] fallback_bullets ++ [LF; LF]
                 ++ lit "*#CryptoNews #MarketOverview*")).
  apply clamp_keeps_prefix. discriminate.
Qed.

Lemma format_fallback_title (date : str) :
  exists rest : str, clamp (format_fallback date) = title_line ++ rest.
Proof.
  change (format_fallback date)
    with (title_line ++ (CALENDAR :: lit " *" ++ date ++ lit "*")
          ++ (BULLET :: lit " Comprehensive market analysis in progress")
          ++ lit "*#CryptoNews #MarketOverview*").
  apply clamp_keeps_prefix. discriminate.
Qed.

(** X8.  Whatever the date, and however long it is, the fallback text starts
    with the chart sign and the bold title "Crypto Market Update": the cut
    at 800 characters never reaches the title. *)
Theorem fallback_starts_with_title (head : str -> Exc Z) (date : str) :
  startswith (text (_create_refined_fallback_content head date)) title_line
  = true.
Proof.
  simpl text. destruct (fallback_text_title date) as [rest ->].
  apply startswith_app.
Qed.

(** ** [_format_content_refined] *)

Lemma format_fallback_shape (date : str) :
  format_fallback date
  = (title_line ++ CALENDAR :: lit " *") ++ date
    ++ (lit "*" ++ (BULLET :: lit " Comprehensive market analysis in progress")
        ++ hashtags_line).
Proof.
  change (format_fallback date)
    with (title_line ++ CALENDAR :: lit " *" ++ (date ++ lit "*")
          ++ (BULLET :: lit " Comprehensive market analysis in progress")
          ++ hashtags_line).
  rewrite <- (app_assoc date). reflexivity.
Qed.

(** X9.  The formatted text does not depend on the content: the [try] body
    always raises, and for a date of at most 698 characters the result is
    the string of the [except] branch, uncut, 102 characters and the
    date. *)
Theorem format_never_uses_content (RT : Runtime) (content other date : str) :
  _format_content_refined content date = _format_content_refined other date
  /\ (len date <= 698 ->
      _format_content_refined content date = format_fallback date
      /\ len (_format_content_refined content date) = 102 + len date).
Proof.
  rewrite !format_takes_except_branch. split; [reflexivity |].
  intros H.
  assert (L : len (format_fallback date) = 102 + len date).
  { rewrite format_fallback_shape, !len_app.
    change (len title_line) with 26.
    change (len (CALENDAR :: lit " *")) with 3.
    change (len (lit "*")) with 1.
    change (len (BULLET :: lit " Comprehensive market analysis in progress"))
      with 43.
    change (len hashtags_line) with 29.
    lia. }
  rewrite clamp_under by (change max_len with 800; lia).
  split; [reflexivity | exact L].
Qed.

Lemma format_never_uses_content_witness :
  let date := lit "September 30, 2025" in
  len date <= 698
  /\ _format_content_refined (RT := Reference.cpython)
       (lit "Bitcoin rose. Ethereum fell.") date
     = format_fallback date
  /\ len (_format_content_refined (RT := Reference.cpython)
            (lit "Bitcoin rose. Ethereum fell.") date) = 102 + len date.
Proof.
  intros date.
  assert (H : len date <= 698) by (vm_compute; discriminate).
  split; [exact H |].
  exact (proj2 (format_never_uses_content Reference.cpython
                  (lit "Bitcoin rose. Ethereum fell.") [] date) H).
Defined.

(** ** [get_crypto_news_content] *)

(** X10.  Every text the public operation returns starts with the chart sign and
    the bold title "Crypto Market Update". *)
Theorem news_starts_with_title
    (RT : Runtime) (self : PerplexityClient) (w : World) :
  exists result : ComposedContent,
    get_crypto_news_content self w = Ok result
    /\ startswith (text result) title_line = true.
Proof.
  unfold get_crypto_news_content, try_except, news_body, bind.
  destruct (post w _ _ _) as [response | e];
    [destruct (negb (status_code response =? 200));
       [| destruct (json_body response) as [data | e];
          [destruct (negb (truthy (_extract_content_simple data))) |]] |];
    eexists; (split; [reflexivity |]); simpl text;
    try (destruct (fallback_text_title (strftime_now w 0)) as [rest ->];
         apply startswith_app);
    try (destruct (fallback_text_title (strftime_now w 1)) as [rest ->];
         apply startswith_app).
  rewrite format_takes_except_branch.
  destruct (format_fallback_title (strftime_now w 0)) as [rest ->].
  apply startswith_app.
Qed.

(** X11.  When the request raises, the result is the fallback content for the
    date read in the handler; when the status is not 200, when the body
    does not parse, or when nothing is extracted, it is the fallback
    content for the date read at the start. *)
Theorem news_failure_gives_fallback
    (RT : Runtime) (self : PerplexityClient) (w : World) :
  let request :=
    post w (base_url self) (headers self)
      (payload_of (prompt_of (strftime_now w 0))) in
  let fallback := _create_refined_fallback_content (head w) in
  (forall e : exn,
      request = Raise e ->
      get_crypto_news_content self w = Ok (fallback (strftime_now w 1)))
  /\ (forall response : Response,
         request = Ok response ->
         status_code response <> 200 ->
         get_crypto_news_content self w = Ok (fallback (strftime_now w 0)))
  /\ (forall (response : Response) (e : exn),
         request = Ok response ->
         json_body response = Raise e ->
         get_crypto_news_content self w = Ok (fallback (strftime_now w 0)))
  /\ (forall (response : Response) (data : json),
         request = Ok response ->
         json_body response = Ok data ->
         _extract_content_simple data = [] ->
         get_crypto_news_content self w = Ok (fallback (strftime_now w 0))).
Proof.
  intros request fallback. subst request fallback.
  unfold get_crypto_news_content, try_except, news_body, bind.
  repeat split.
  - intros e ->. reflexivity.
  - intros response -> Hs.
    destruct (Z.eqb_spec (status_code response) 200); [contradiction | reflexivity].
  - intros response e -> ->.
    destruct (negb (status_code response =? 200)); reflexivity.
  - intros response data -> -> Hx. rewrite Hx.
    destruct (negb (status_code response =? 200)); reflexivity.
Qed.

(** Four worlds around midnight: the request raises; the service answers
    503; the body is not JSON; the body holds a number only. *)
Lemma news_failure_gives_fallback_witness :
  let clock := fun k : nat =>
    match k with
    | O => lit "September 30, 2025"
    | _ => lit "October 01, 2025"
    end in
  let probe := fun _ : str => Ok 200 : Exc Z in
  let world := fun outcome : Exc Response =>
    {| strftime_now := clock; post := fun _ _ _ => outcome; head := probe |} in
  let self := __init__ (lit "key") in
  let late := _create_refined_fallback_content probe (lit "October 01, 2025") in
  let early := _create_refined_fallback_content probe (lit "September 30, 2025") in
  get_crypto_news_content (RT := Reference.cpython) self
    (world (Raise RequestException)) = Ok late
  /\ get_crypto_news_content (RT := Reference.cpython) self
       (world (Ok {| status_code := 503; json_body := Ok JNull |})) = Ok early
  /\ get_crypto_news_content (RT := Reference.cpython) self
       (world (Ok {| status_code := 200; json_body := Raise JSONDecodeError |}))
     = Ok early
  /\ get_crypto_news_content (RT := Reference.cpython) self
       (world (Ok {| status_code := 200; json_body := Ok (JInt 7) |})) = Ok early.
Proof.
  intros clock probe world self late early.
  split; [| split; [| split]].
  - exact (proj1 (news_failure_gives_fallback Reference.cpython self
                    (world (Raise RequestException)))
             RequestException eq_refl).
  - exact (proj1 (proj2 (news_failure_gives_fallback Reference.cpython self
                    (world (Ok {| status_code := 503; json_body := Ok JNull |}))))
             _ eq_refl ltac:(discriminate)).
  - exact (proj1 (proj2 (proj2 (news_failure_gives_fallback Reference.cpython self
                    (world (Ok {| status_code := 200;
                                  json_body := Raise JSONDecodeError |})))))
             _ JSONDecodeError eq_refl eq_refl).
  - exact (proj2 (proj2 (proj2 (news_failure_gives_fallback Reference.cpython self
                    (world (Ok {| status_code := 200;
                                  json_body := Ok (JInt 7) |})))))
             _ (JInt 7) eq_refl eq_refl eq_refl).
Defined.

(** ** [_generate_unique_crypto_image] *)

Lemma encode_char_encodable (c : char) :
  (encodable c = true -> exists bytes, Hash.encode_char c = Ok bytes)
  /\ (encodable c = false -> Hash.encode_char c = Raise UnicodeEncodeError).
Proof.
  unfold encodable, Hash.encode_char.
  destruct (N.ltb_spec c 0x80); [split; [eexists; reflexivity |] |].
  { destruct (N.ltb_spec c 0x110000); [| lia].
    destruct (N.leb_spec 0xD800 c); [lia | discriminate]. }
  destruct (N.ltb_spec c 0x800); [split; [eexists; reflexivity |] |].
  { destruct (N.ltb_spec c 0x110000); [| lia].
    destruct (N.leb_spec 0xD800 c); [lia | discriminate]. }
  destruct (N.ltb_spec c 0x10000).
  - destruct (N.ltb_spec c 0x110000); [| lia].
    destruct (N.leb_spec 0xD800 c), (N.leb_spec c 0xDFFF); simpl;
      split; try discriminate; try (eexists; reflexivity); reflexivity.
  - destruct (N.ltb_spec c 0x110000); simpl.
    + destruct (N.leb_spec 0xD800 c), (N.leb_spec c 0xDFFF); simpl;
        split; try discriminate; try (eexists; reflexivity); lia.
    + split; [discriminate | reflexivity].
Qed.

Lemma encode_encodable (s : str) :
  (forallb encodable s = true -> exists bytes, Hash.encode s = Ok bytes)
  /\ (forallb encodable s = false -> Hash.encode s = Raise UnicodeEncodeError).
Proof.
  induction s as [| c s [IHok IHno]]; simpl.
  - split; [eexists; reflexivity | discriminate].
  - destruct (encode_char_encodable c) as [Hok Hno].
    destruct (encodable c); simpl.
    + destruct (Hok eq_refl) as [b ->]. simpl. split.
      * intros H. destruct (IHok H) as [bs ->]. eexists. reflexivity.
      * intros H. rewrite (IHno H). reflexivity.
    + rewrite (Hno eq_refl). split; [discriminate | reflexivity].
Qed.

(** X12.  The URL returned is the selected candidate when its probe
    answers 200, and the fallback URL in every other case: when the probe
    answers another status, when it raises, and when no candidate could be
    selected.  The fallback URL is itself in the pool, so the result is
    always one of the seven candidates of some digest. *)
Theorem image_is_confirmed_or_fallback (head : str -> Exc Z) (content : str) :
  (forall selected : str,
      selected_image_of content = Ok selected ->
      head selected = Ok 200 ->
      _generate_unique_crypto_image head content = selected)
  /\ (forall selected : str,
         selected_image_of content = Ok selected ->
         head selected <> Ok 200 ->
         _generate_unique_crypto_image head content = FALLBACK_IMAGE)
  /\ (forall e : exn,
         selected_image_of content = Raise e ->
         _generate_unique_crypto_image head content = FALLBACK_IMAGE)
  /\ exists content_hash : str,
       In (_generate_unique_crypto_image head content) (crypto_images content_hash).
Proof.
  unfold _generate_unique_crypto_image, try_or, bind.
  assert (F : forall h, In FALLBACK_IMAGE (crypto_images h))
    by (intros h; simpl; tauto).
  split; [| split; [| split]].
  - intros selected -> ->. reflexivity.
  - intros selected -> Hp. destruct (head selected) as [status |]; [| reflexivity].
    destruct (Z.eqb_spec status 200) as [-> | _]; [| reflexivity].
    contradiction Hp. reflexivity.
  - intros e ->. reflexivity.
  - destruct (selected_image_of content) as [selected |] eqn:E;
      [| exists []; apply F].
    destruct (head selected) as [status |]; [| exists []; apply F].
    destruct (Z.eqb_spec status 200) as [-> | _]; [| exists []; apply F].
    unfold selected_image_of, bind in E.
    destruct (content_hash_of content) as [h |]; [| discriminate].
    exists h. unfold pick_image, bind in E.
    destruct (Hash.int16 h); [| discriminate].
    destruct (nth_error (crypto_images h) _) as [u |] eqn:N; [| discriminate].
    injection E as <-. apply (nth_error_In _ _ N).
Qed.

(** The text "news 4507" selects the third candidate; a probe that
    answers 200, one that answers 404, and a text that cannot be encoded. *)
Lemma image_is_confirmed_or_fallback_witness :
  let content := lit "news 4507" in
  let selected :=
    lit "https://source.unsplash.com/1200x800/?blockchain,finance,charts" in
  let up := fun _ : str => Ok 200 : Exc Z in
  let down := fun _ : str => Ok 404 : Exc Z in
  selected_image_of content = Ok selected
  /\ _generate_unique_crypto_image up content = selected
  /\ _generate_unique_crypto_image down content = FALLBACK_IMAGE
  /\ selected_image_of [0xD800%N] = Raise UnicodeEncodeError
  /\ _generate_unique_crypto_image up [0xD800%N] = FALLBACK_IMAGE.
Proof.
  intros content selected up down.
  assert (S : selected_image_of content = Ok selected)
    by (vm_compute; reflexivity).
  assert (R : selected_image_of [0xD800%N] = Raise UnicodeEncodeError)
    by reflexivity.
  split; [exact S |]. split; [| split; [| split; [exact R |]]].
  - exact (proj1 (image_is_confirmed_or_fallback up content) selected S eq_refl).
  - exact (proj1 (proj2 (image_is_confirmed_or_fallback down content))
             selected S ltac:(discriminate)).
  - exact (proj1 (proj2 (proj2 (image_is_confirmed_or_fallback up [0xD800%N])))
             UnicodeEncodeError R).
Defined.

(** X13.  A candidate is selected exactly for the texts UTF-8 can encode: with a
    surrogate code point in the text no probe is made and the fallback URL
    is returned; without one the digest is always a number and the index
    always in the pool. *)
Theorem image_selection_and_surrogates (content : str) :
  (forallb encodable content = true ->
   exists selected : str, selected_image_of content = Ok selected)
  /\ (forallb encodable content = false ->
      forall head : str -> Exc Z,
        _generate_unique_crypto_image head content = FALLBACK_IMAGE).
Proof.
  destruct (encode_encodable content) as [Hok Hno]. split.
  - intros H. destruct (Hok H) as [bytes Eb].
    assert (Eh : content_hash_of content
                 = Ok (slice_to 8 (Hash.hexdigest (Hash.md5 bytes))))
      by (unfold content_hash_of, bind; rewrite Eb; reflexivity).
    destruct (content_hash_int content _ Eh) as (hash_int & Hint & _).
    destruct (pick_image_index _ hash_int Hint) as [_ P].
    eexists. unfold selected_image_of, bind. rewrite Eh. exact P.
  - intros H head.
    unfold _generate_unique_crypto_image, selected_image_of, content_hash_of,
      try_or, bind.
    rewrite (Hno H). reflexivity.
Qed.

Lemma image_selection_and_surrogates_witness :
  let plain := CHART :: lit " Crypto" in
  let broken := lit "Crypto" ++ [0xD83D%N] in
  (forallb encodable plain = true
   /\ exists selected : str, selected_image_of plain = Ok selected)
  /\ (forallb encodable broken = false
      /\ _generate_unique_crypto_image (fun _ => Ok 200) broken = FALLBACK_IMAGE).
Proof.
  intros plain broken.
  assert (H1 : forallb encodable plain = true) by reflexivity.
  assert (H2 : forallb encodable broken = false) by reflexivity.
  split.
  - exact (conj H1 (proj1 (image_selection_and_surrogates plain) H1)).
  - exact (conj H2 (proj2 (image_selection_and_surrogates broken) H2
                      (fun _ => Ok 200))).
Defined.

(** ** [_extract_content_simple] *)

Lemma lstrip_with_twice (p : char -> bool) (s : str) :
  lstrip_with p (lstrip_with p s) = lstrip_with p s.
Proof.
  induction s as [| c s IH]; simpl; [reflexivity |].
  destruct (p c) eqn:E; [exact IH | simpl; rewrite E; reflexivity].
Qed.

Lemma lstrip_with_snoc (p : char -> bool) (a : str) (c : char) :
  p c = false -> lstrip_with p (a ++ [c]) = lstrip_with p a ++ [c].
Proof.
  intros Hc. induction a as [| x a IH]; simpl; [rewrite Hc; reflexivity |].
  destruct (p x); [exact IH | reflexivity].
Qed.

Lemma rstrip_with_twice (p : char -> bool) (s : str) :
  rstrip_with p (rstrip_with p s) = rstrip_with p s.
Proof.
  unfold rstrip_with. rewrite rev_involutive, lstrip_with_twice. reflexivity.
Qed.

Lemma lstrip_rstrip_clean (p : char -> bool) (s : str) :
  lstrip_with p s = s -> lstrip_with p (rstrip_with p s) = rstrip_with p s.
Proof.
  destruct s as [| c s]; [reflexivity |]. simpl.
  destruct (p c) eqn:E.
  - intros H. pose proof (len_lstrip_with p s) as L. rewrite H in L.
    rewrite len_cons in L. lia.
  - intros _. unfold rstrip_with. simpl rev.
    rewrite (lstrip_with_snoc p (rev s) c E), rev_app_distr. simpl.
    rewrite E. reflexivity.
Qed.

Lemma strip_twice (s : str) : strip (strip s) = strip s.
Proof.
  unfold strip.
  rewrite (lstrip_rstrip_clean isspace (lstrip_with isspace s))
    by apply lstrip_with_twice.
  apply rstrip_with_twice.
Qed.

Lemma str_eqb_eq (a b : str) : str_eqb a b = true -> a = b.
Proof.
  revert b. induction a as [| x a IH]; intros [| y b]; simpl; try discriminate.
  - reflexivity.
  - intros H. apply andb_prop in H as [Hx Hr].
    apply N.eqb_eq in Hx. subst y. f_equal. apply IH, Hr.
Qed.

Lemma dict_get_In (key : str) (items : list (str * json)) (v : json) :
  dict_get key items = Some v -> In (key, v) items.
Proof.
  induction items as [| [k x] rest IH]; simpl; [discriminate |].
  destruct (str_eqb k key) eqn:E.
  - intros [= ->]. apply str_eqb_eq in E. subst k. left. reflexivity.
  - intros H. right. apply (IH H).
Qed.

Lemma dict_get_strings (key : str) (items : list (str * json)) (v : json) (s : str) :
  dict_get key items = Some v -> In s (strings_of v) ->
  In s (strings_of (JDict items)).
Proof.
  intros G Hs. simpl. apply in_flat_map. exists (key, v).
  split; [apply (dict_get_In _ _ _ G) | exact Hs].
Qed.

Lemma dict_get_keys (key : str) (items : list (str * json)) (v : json) :
  dict_get key items = Some v ->
  In key (keys_of (JDict items))
  /\ forall k, In k (keys_of v) -> In k (keys_of (JDict items)).
Proof.
  intros G. apply dict_get_In in G. simpl. split.
  - apply in_flat_map. exists (key, v). split; [exact G | left; reflexivity].
  - intros k Hk. apply in_flat_map. exists (key, v).
    split; [exact G | right; exact Hk].
Qed.

Lemma matches_strings (obj : json) (s : str) :
  In s (Spec.matches obj) -> In s (strings_of obj).
Proof.
  revert s. induction obj using json_induction; intros r; simpl; try tauto.
  - destruct (50 <? len s); simpl; tauto.
  - rewrite !in_flat_map. intros (x & Hx & Hr). exists x.
    split; [exact Hx |]. rewrite Forall_forall in H. apply (H x Hx r Hr).
  - assert (Hvalues :
      In r (flat_map (fun item => Spec.matches (snd item)) items) ->
      In r (flat_map (fun item => strings_of (snd item)) items)).
    { rewrite !in_flat_map. intros (x & Hx & Hr). exists x.
      split; [exact Hx |]. rewrite Forall_forall in H. apply (H x Hx r Hr). }
    destruct (dict_get (lit "content") items) as [[| | | | c | |] |] eqn:G;
      try exact Hvalues.
    intros [<- | []].
    apply (dict_get_strings _ _ _ _ G). left. reflexivity.
Qed.

Lemma first_match_strings (obj : json) (s : str) :
  Spec.first_match obj = Some s -> In s (strings_of obj).
Proof.
  unfold Spec.first_match. intros H. apply matches_strings.
  destruct (filter truthy (Spec.matches obj)) as [| x l] eqn:F; [discriminate |].
  injection H as ->.
  assert (Hin : In s (filter truthy (Spec.matches obj)))
    by (rewrite F; left; reflexivity).
  apply filter_In in Hin. tauto.
Qed.

Lemma standard_content_origin (data : json) (c : str) :
  standard_content data = Some c ->
  c <> []
  /\ In (lit "content") (keys_of data)
  /\ exists s, In s (strings_of data) /\ c = strip s.
Proof.
  unfold standard_content.
  destruct data as [| | | | | | d]; try discriminate.
  destruct (dict_get (lit "choices") d) as [[| | | | | [| [| | | | | | first] rest] |] |] eqn:G1;
    try discriminate.
  destruct (dict_get (lit "message") first) as [[| | | | | | message] |] eqn:G2;
    try discriminate.
  destruct (dict_get (lit "content") message) as [[| | | | content | |] |] eqn:G3;
    try discriminate.
  destruct (strip content) as [| x xs] eqn:S; [discriminate |].
  intros [= <-]. split; [discriminate |].
  destruct (dict_get_keys _ _ _ G1) as [_ K1].
  destruct (dict_get_keys _ _ _ G2) as [_ K2].
  destruct (dict_get_keys _ _ _ G3) as [K3 _].
  split.
  - apply K1. simpl. apply in_or_app. left. apply K2. exact K3.
  - exists content. split; [| symmetry; exact S].
    apply (dict_get_strings _ _ _ _ G1). simpl. apply in_or_app. left.
    apply (dict_get_strings _ _ _ _ G2).
    apply (dict_get_strings _ _ _ _ G3). left. reflexivity.
Qed.

(** X14.  The extracted text is trimmed: stripping it again changes nothing. *)
Theorem extracted_is_trimmed (data : json) :
  strip (_extract_content_simple data) = _extract_content_simple data.
Proof.
  unfold _extract_content_simple.
  destruct (standard_content data) as [c |] eqn:E.
  - destruct (standard_content_origin data c E) as (_ & _ & s & _ & ->).
    apply strip_twice.
  - destruct (find_content data) as [c |]; [| reflexivity].
    destruct (truthy c); [apply strip_twice | reflexivity].
Qed.

(** X15.  Extraction invents nothing: a non-empty result is the trimmed form of
    a string held somewhere in the response. *)
Theorem extracted_comes_from_response (data : json) :
  _extract_content_simple data <> [] ->
  exists s : str,
    In s (strings_of data) /\ _extract_content_simple data = strip s.
Proof.
  destruct (standard_content data) as [c |] eqn:E.
  - intros _. unfold _extract_content_simple. rewrite E.
    destruct (standard_content_origin data c E) as (_ & _ & s & Hs & ->).
    exists s. split; [exact Hs | reflexivity].
  - rewrite (extract_unfold data E).
    destruct (Spec.first_match data) as [c |] eqn:F;
      [| intros H; contradiction H; reflexivity].
    intros _. exists c. split; [apply (first_match_strings _ _ F) | reflexivity].
Qed.

Lemma extracted_comes_from_response_witness :
  let data :=
    JDict [ (lit "id", JStr (lit "r1"));
            (lit "result", JList [ JDict [ (lit "content", JStr (lit " Bitcoin rose. ")) ] ]) ] in
  _extract_content_simple data <> []
  /\ exists s : str,
       In s (strings_of data) /\ _extract_content_simple data = strip s.
Proof.
  intros data.
  assert (H : _extract_content_simple data <> []) by (vm_compute; discriminate).
  split; [exact H |]. exact (extracted_comes_from_response data H).
Defined.

Lemma no_match_without_content (obj : json) :
  ~ In (lit "content") (keys_of obj) ->
  Forall (fun s => len s <= 50) (strings_of obj) ->
  Spec.matches obj = [].
Proof.
  induction obj using json_induction; intros Hk Hs; simpl; try reflexivity.
  - inversion Hs as [| x l Hx _]; subst.
    destruct (Z.ltb_spec 50 (len s)); [lia | reflexivity].
  - simpl in Hk, Hs. induction H as [| x rest Hx _ IH]; [reflexivity |].
    simpl in *. apply Forall_app in Hs as [Hs1 Hs2].
    rewrite Hx, IH; try assumption; try reflexivity;
      intros Hin; apply Hk, in_or_app; tauto.
  - destruct (dict_get (lit "content") items) as [v |] eqn:G.
    { contradiction Hk. apply (proj1 (dict_get_keys _ _ _ G)). }
    clear G. simpl in Hk, Hs. induction H as [| [k x] rest Hx _ IH]; [reflexivity |].
    simpl in *. apply Forall_app in Hs as [Hs1 Hs2].
    rewrite Hx, IH; try assumption; try reflexivity;
      intros Hin; apply Hk; right; apply in_or_app; tauto.
Qed.

(** X16.  A response with no "content" key anywhere and no string longer than
    50 characters gives the empty string. *)
Theorem nothing_to_extract (data : json) :
  ~ In (lit "content") (keys_of data) ->
  Forall (fun s => len s <= 50) (strings_of data) ->
  _extract_content_simple data = [].
Proof.
  intros Hk Hs.
  destruct (standard_content data) as [c |] eqn:E.
  - destruct (standard_content_origin data c E) as (_ & K & _). contradiction.
  - rewrite (extract_unfold data E). unfold Spec.first_match.
    rewrite (no_match_without_content data Hk Hs). reflexivity.
Qed.

Lemma nothing_to_extract_witness :
  let data :=
    JDict [ (lit "error", JDict [ (lit "message", JStr (lit "rate limited"));
                                  (lit "code", JInt 429) ]);
            (lit "choices", JList []) ] in
  ~ In (lit "content") (keys_of data)
  /\ Forall (fun s => len s <= 50) (strings_of data)
  /\ _extract_content_simple data = [].
Proof.
  intros data.
  assert (Hk : ~ In (lit "content") (keys_of data)).
  { simpl. intros [H | [H | [H | [H | []]]]]; discriminate H. }
  assert (Hs : Forall (fun s => len s <= 50) (strings_of data))
    by (repeat constructor; discriminate).
  split; [exact Hk |]. split; [exact Hs |]. exact (nothing_to_extract data Hk Hs).
Defined.

(** ** [_convert_to_detailed_bullets] *)

Lemma comprehensive_are_bullets : Forall is_bullet _generate_comprehensive_bullets.
Proof.
  unfold _generate_comprehensive_bullets.
  repeat (constructor; [eexists; split; [reflexivity | discriminate] |]).
  constructor.
Qed.

Section BulletShape.
Context {RT : Runtime}.

Lemma enhanced_nonempty (bullet : str) :
  bullet <> [] -> _enhance_short_bullet bullet <> [].
Proof.
  intros H. unfold _enhance_short_bullet. rewrite enhance_loop_first.
  destruct (len bullet <? 50); [| exact H].
  destruct (find _ enhancements) as [[key canned] |] eqn:F; [| exact H].
  apply find_some in F as [Hin _]. simpl in Hin.
  repeat (destruct Hin as [[= <- <-] | Hin]; [discriminate |]). contradiction.
Qed.

Lemma bullet_of_shape (sentence : str) : Forall is_bullet (bullet_of sentence).
Proof.
  unfold bullet_of.
  destruct (strip (rstrip_chars (lit ".!?") sentence)) as [| c s] eqn:E; simpl;
    constructor; [| constructor].
  eexists. split; [reflexivity |].
  destruct (len (c :: s) <? 60); [apply enhanced_nonempty |]; discriminate.
Qed.

Lemma convert_shape (content : str) :
  Forall is_bullet (_convert_to_detailed_bullets content).
Proof.
  rewrite convert_unfold.
  destruct (sentence_bullets content) as [produced |] eqn:E;
    [| apply comprehensive_are_bullets].
  assert (Hp : Forall is_bullet produced).
  { unfold sentence_bullets, bind in E.
    destruct (re_sub _ _ _); [| discriminate].
    destruct (split _ _); [| discriminate]. injection E as <-.
    apply Forall_flat_map, Forall_forall. intros x _. apply bullet_of_shape. }
  unfold ensure_bullets.
  destruct (len produced <? 4); [apply comprehensive_are_bullets |].
  destruct (6 <? len produced); [| exact Hp].
  rewrite slice_to_nonneg by lia. apply Forall_take, Hp.
Qed.

End BulletShape.

(** X17.  Every bullet the bulletization returns is the bullet sign, a space and
    a sentence that is not empty. *)
Theorem bullets_are_marked (RT : Runtime) (content : str) :
  Forall (fun b : str =>
            exists body : str, b = BULLET :: 32%N :: body /\ body <> [])
    (_convert_to_detailed_bullets content).
Proof.
  apply (Forall_impl _ (P := is_bullet)); [| apply convert_shape].
  intros b (body & -> & Hne). exists body. split; [reflexivity | exact Hne].
Qed.

Lemma replace_absent (s new : str) (c : char) :
  ~ In c s -> replace s [c] new = s.
Proof.
  unfold replace. generalize (length s) as fuel. intros fuel. revert s.
  induction fuel as [| fuel IH]; intros s Hc; [reflexivity |].
  destruct s as [| x s]; [reflexivity |]. simpl.
  destruct (N.eqb_spec x c) as [-> | _]; [contradiction Hc; left; reflexivity |].
  simpl. f_equal. apply IH. intros H. apply Hc. right. exact H.
Qed.

Lemma split_absent (fuel : nat) (cur s : str) (c : char) :
  ~ In c s -> split_aux [c] fuel cur s = [cur ++ s].
Proof.
  revert cur s. induction fuel as [| fuel IH]; intros cur s Hc; [reflexivity |].
  destruct s as [| x s]; [simpl; rewrite app_nil_r; reflexivity |]. simpl.
  destruct (N.eqb_spec x c) as [-> | _]; [contradiction Hc; left; reflexivity |].
  simpl. rewrite IH by (intros H; apply Hc; right; exact H).
  rewrite <- app_assoc. reflexivity.
Qed.

Lemma length_filter_le {A} (f : A -> bool) (l : list A) :
  (length (filter f l) <= length l)%nat.
Proof. induction l as [| x l IH]; simpl; [lia |]. destruct (f x); simpl; lia. Qed.

Section Unpunctuated.
Context {RT : Runtime}.

Lemma bullet_of_at_most_one (sentence : str) :
  (length (bullet_of sentence) <= 1)%nat.
Proof.
  unfold bullet_of. destruct (negb (truthy _)); simpl; lia.
Qed.

Lemma flat_map_bullet_of_length (sentences : list str) :
  (length (flat_map bullet_of sentences) <= length sentences)%nat.
Proof.
  induction sentences as [| x l IH]; simpl; [lia |].
  rewrite length_app. pose proof (bullet_of_at_most_one x). lia.
Qed.

Lemma unpunctuated_comprehensive (content cleaned : str) :
  re_sub (lit "(?:#w+s*)+$") [] content = Ok cleaned ->
  (forall c : char, In c (strip cleaned) -> ~ In c (lit ".!?|")) ->
  _convert_to_detailed_bullets content = _generate_comprehensive_bullets.
Proof.
  intros E Hc. rewrite convert_unfold. unfold sentence_bullets, bind. rewrite E.
  assert (Hno : forall c : char, In c (lit ".!?|") -> ~ In c (strip cleaned))
    by (intros c Hin Hs; apply (Hc c Hs Hin)).
  change (lit ".") with [46%N]. change (lit "!") with [33%N].
  change (lit "?") with [63%N]. change (lit "|") with [124%N].
  rewrite (replace_absent (strip cleaned) _ 46%N) by (apply Hno; simpl; tauto).
  rewrite (replace_absent (strip cleaned) _ 33%N) by (apply Hno; simpl; tauto).
  rewrite (replace_absent (strip cleaned) _ 63%N) by (apply Hno; simpl; tauto).
  unfold split. rewrite split_absent by (apply Hno; simpl; tauto).
  unfold ensure_bullets.
  match goal with |- context [flat_map bullet_of ?l] =>
    pose proof (flat_map_bullet_of_length l) as L1;
    assert (L2 : (length l <= 1)%nat)
  end.
  { etransitivity; [apply length_filter_le |]. rewrite length_map.
    etransitivity; [apply length_filter_le |]. simpl. apply Nat.le_refl. }
  match goal with |- context [len ?b <? 4] =>
    assert (H4 : len b < 4);
      [| apply Z.ltb_lt in H4; rewrite H4; reflexivity]
  end.
  apply (Z.le_lt_trans _ (Z.of_nat 1)); [| reflexivity].
  unfold len. apply Nat2Z.inj_le.
  etransitivity; [exact L1 | exact L2].
Qed.

End Unpunctuated.

(** X18.  A text in which no full stop, exclamation mark, question mark or
    vertical bar is left after the hashtags are removed holds one sentence
    at most, and the bulletization answers with the six comprehensive
    bullets. *)
Theorem unpunctuated_text_gives_comprehensive
    (RT : Runtime) (content cleaned : str) :
  re_sub (lit "(?:#w+s*)+$") [] content = Ok cleaned ->
  (forall c : char, In c (strip cleaned) -> ~ In c (lit ".!?|")) ->
  _convert_to_detailed_bullets content = _generate_comprehensive_bullets.
Proof. apply unpunctuated_comprehensive. Qed.

Lemma unpunctuated_text_gives_comprehensive_witness :
  let content := lit "Markets were quiet today and volumes stayed low #w" in
  let cleaned := lit "Markets were quiet today and volumes stayed low " in
  re_sub (Runtime := Reference.cpython) (lit "(?:#w+s*)+$") [] content = Ok cleaned
  /\ (forall c : char, In c (strip cleaned) -> ~ In c (lit ".!?|"))
  /\ _convert_to_detailed_bullets (RT := Reference.cpython) content
     = _generate_comprehensive_bullets.
Proof.
  intros content cleaned.
  assert (E : re_sub (Runtime := Reference.cpython) (lit "(?:#w+s*)+$") [] content
              = Ok cleaned) by (vm_compute; reflexivity).
  assert (Hc : forall c : char, In c (strip cleaned) -> ~ In c (lit ".!?|")).
  { intros c Hin Hp. apply (In_nth _ _ 0%N) in Hp as (i & Hi & <-).
    revert Hin. vm_compute in Hi.
    do 4 (destruct i as [| i]; [vm_compute; intuition discriminate |]). lia. }
  split; [exact E |]. split; [exact Hc |].
  exact (unpunctuated_text_gives_comprehensive Reference.cpython content cleaned E Hc).
Defined.

(** ** Checks of the primitives against CPython *)

Example md5_empty :
  Hash.hexdigest (Hash.md5 []) = lit "d41d8cd98f00b204e9800998ecf8427e".
Proof. vm_compute. reflexivity. Qed.

Example md5_abc :
  Hash.hexdigest (Hash.md5 [97; 98; 99]) = lit "900150983cd24fb0d6963f7d28e17f72".
Proof. vm_compute. reflexivity. Qed.

Example md5_of_utf8 :
  Hash.encode [CHART; 32%N; 120%N] = Ok [240; 159; 147; 136; 32; 120]
  /\ Hash.hexdigest (Hash.md5 [240; 159; 147; 136; 32; 120])
     = lit "9b855eecf1eeb56b1a4683e5455dd684".
Proof. vm_compute. split; reflexivity. Qed.

Example encode_surrogate : Hash.encode [0xD800%N] = Raise UnicodeEncodeError.
Proof. reflexivity. Qed.

Example split_on_bar :
  split (lit "a|b||c|") (lit "|") = Ok [lit "a"; lit "b"; []; lit "c"; []].
Proof. vm_compute. reflexivity. Qed.

Example split_on_nothing :
  split (lit "abc") [] = Raise (ValueError "empty separator").
Proof. reflexivity. Qed.

Example replace_full_stop :
  replace (lit "One. Two.") (lit ".") (lit ".|") = lit "One.| Two.|".
Proof. vm_compute. reflexivity. Qed.

Example strip_unicode_space :
  strip ([0xA0; 32; 9]%N ++ lit "x y" ++ [0x2003; 10]%N) = lit "x y".
Proof. vm_compute. reflexivity. Qed.

Example rstrip_terminal :
  rstrip_chars (lit ".!?") (lit "Really?!.") = lit "Really".
Proof. vm_compute. reflexivity. Qed.

Example hashtags_before_line_feed :
  Reference.drop_hashtag_runs (lit "abc #ws#ww" ++ [LF]) = lit "abc " ++ [LF].
Proof. vm_compute. reflexivity. Qed.

Example hashtags_leftmost :
  Reference.drop_hashtag_runs (lit "#w#w x#w") = lit "#w#w x".
Proof. vm_compute. reflexivity. Qed.

Example blanks_collapsed :
  Reference.collapse_blanks (lit "a   b  ") = lit "a b ".
Proof. vm_compute. reflexivity. Qed.
